(** * validate_filter_ip: dampened reachability monitor driving a prefix-list filter

    A shallow embedding of [validate_filter_ip.py].  The script pings one
    target, dampens the alive/dead verdict with two counters, and on a
    verdict change adds or removes the target's /31 in the prefix-list
    [SCRIPTED_ROUTE_FILTER] of the switch through its command API.

    Layout of the development:
    - Python string helpers and the libc address parser;
    - [is_valid_ipv4_address] and [network_s31];
    - the switch (command API and prefix-list store) and the effect monad;
    - [check_filter], [add_filter], [remove_filter], [build_connection];
    - the start of [main] and the body of its polling loop;
    - the loop without its effects, used to reason about runs;
    - the theorems: the address parser, the passes of the loop, runs,
      and the properties C1 to C10 of the specification.

    The script branches on the interpreter ([sys.version_info[0]] in
    [isAlive]), so what depends on it takes its major version [py]:
    [isAlive], and [check_filter] with everything that calls it. *)

From stdpp Require Import base strings list gmap.
From Stdlib Require Import ZArith String Ascii Lia DecimalString.

Open Scope Z_scope.

(** ** Failures

    [exit(msg)] raises [SystemExit]; any other exception is recorded by the
    name of its class.  Neither is caught anywhere in the script: the only
    handler, around the polling loop, is for [KeyboardInterrupt]. *)

Inductive Failure : Type :=
  | SystemExit (msg : string)
  | Uncaught (exc : string).

Inductive Res (A : Type) : Type :=
  | Ok (a : A)
  | Err (f : Failure).

Arguments Ok {A} a.
Arguments Err {A} f.

#[global] Instance res_ret : MRet Res := fun A a => Ok a.

#[global] Instance res_bind : MBind Res := fun A B k r =>
  match r with
  | Ok a => k a
  | Err f => Err f
  end.

(** ** Python strings *)

Module Py.

(** [c in s] for a one-character [c]. *)
Fixpoint contains (c : ascii) (s : string) : bool :=
  match s with
  | EmptyString => false
  | String x r => if Ascii.eqb x c then true else contains c r
  end.

(** [s.split(c)] for a one-character separator: never empty, and an
    empty field between two adjacent separators. *)
Fixpoint split (c : ascii) (s : string) : list string :=
  match s with
  | EmptyString => [EmptyString]
  | String x r =>
      if Ascii.eqb x c then EmptyString :: split c r
      else match split c r with
           | p :: ps => String x p :: ps
           | [] => [String x EmptyString]
           end
  end.

(** The value of a decimal digit character. *)
Definition digit_of (ch : ascii) : option Z :=
  let n := Z.of_N (N_of_ascii ch) in
  if (48 <=? n) && (n <=? 57) then Some (n - 48) else None.

Fixpoint int_digits (acc : Z) (s : string) : option Z :=
  match s with
  | EmptyString => Some acc
  | String ch r =>
      match digit_of ch with
      | Some d => int_digits (acc * 10 + d) r
      | None => None
      end
  end.

(** [int(s)] on a string of decimal digits; [None] is [ValueError].
    (Python also takes a sign, surrounding blanks and underscores; the
    script only calls [int] on a field of an address that the address
    parser accepted, which holds digits only.) *)
Definition int (s : string) : option Z :=
  match s with
  | EmptyString => None
  | _ => int_digits 0 s
  end.

(** [str(n)] for an integer. *)
Definition str (n : Z) : string := NilZero.string_of_int (Z.to_int n).

(** [l[i]]; [None] is [IndexError]. *)
Definition index {A} (l : list A) (i : nat) : Res A :=
  match l !! i with
  | Some x => Ok x
  | None => Err (Uncaught "IndexError")
  end.

Definition int_or_raise (s : string) : Res Z :=
  match int s with
  | Some n => Ok n
  | None => Err (Uncaught "ValueError")
  end.

End Py.

(** ** The address parser behind [socket.inet_pton(AF_INET, _)]

    The C library's [inet_pton4] scans the text once, keeping the octet
    being read ([*tp]), whether a digit of it was seen, and the number of
    octets started.  Only acceptance matters to the script, which drops the
    packed address. *)

Record pton_state : Type := {
  tp_val : Z;
  saw_digit : bool;
  octets : Z
}.

Definition pton_step (ch : ascii) (st : pton_state) : option pton_state :=
  match Py.digit_of ch with
  | Some d =>
      let new := tp_val st * 10 + d in
      if saw_digit st && (tp_val st =? 0) then None
      else if 255 <? new then None
      else if saw_digit st then
        Some {| tp_val := new; saw_digit := true; octets := octets st |}
      else if 4 <? octets st + 1 then None
      else Some {| tp_val := new; saw_digit := true; octets := octets st + 1 |}
  | None =>
      if Ascii.eqb ch "." && saw_digit st then
        if octets st =? 4 then None
        else Some {| tp_val := 0; saw_digit := false; octets := octets st |}
      else None
  end.

Fixpoint pton_loop (src : string) (st : pton_state) : bool :=
  match src with
  | EmptyString => negb (octets st <? 4)
  | String ch r =>
      match pton_step ch st with
      | Some st' => pton_loop r st'
      | None => false
      end
  end.

Definition inet_pton4 (src : string) : bool :=
  pton_loop src {| tp_val := 0; saw_digit := false; octets := 0 |}.

(** Python's wrapper refuses a string with an embedded NUL before the C
    call ([TypeError]), and raises [socket.error] when the C call rejects
    the text. *)
Inductive pton_result : Type := Packed | SocketError | NulTypeError.

Definition socket_inet_pton (address : string) : pton_result :=
  if Py.contains "000" address then NulTypeError
  else if inet_pton4 address then Packed
  else SocketError.

(** ** [is_valid_ipv4_address] and [network_s31]

    The [AttributeError] fallback to [inet_aton] is for a platform whose
    [socket] module has no [inet_pton]; Linux and Darwin, the two systems
    [checkOS] knows, have it, and the fallback is not modelled.  A
    [TypeError] is not [socket.error] and leaves the function uncaught. *)

Definition is_valid_ipv4_address (address : string) : Res bool :=
  match socket_inet_pton address with
  | Packed => Ok true
  | SocketError => Ok false
  | NulTypeError => Err (Uncaught "TypeError")
  end.

Definition ipv6_message : string := "IPv6 not currently supported".

Definition invalid_message (address : string) : string :=
  "address " +:+ address +:+ " does not appear to be valid".

Definition network_s31 (address : string) : Res string :=
  if Py.contains ":" address then Err (SystemExit ipv6_message)
  else
    valid ← is_valid_ipv4_address address ;
    if negb valid then Err (SystemExit (invalid_message address))
    else
      let parts := Py.split "." address in
      p3 ← Py.index parts 3 ;
      n ← Py.int_or_raise p3 ;
      if n mod 2 =? 1 then
        p0 ← Py.index parts 0 ;
        p1 ← Py.index parts 1 ;
        p2 ← Py.index parts 2 ;
        Ok (p0 +:+ "." +:+ p1 +:+ "." +:+ p2 +:+ "." +:+ Py.str (n - 1) +:+ "/31")
      else Ok (address +:+ "/31").

(** ** The switch: command API and prefix-list store

    The script reaches the switch through a JSON-RPC server on a unix
    socket and sends it command-line text.  Commands are kept structured
    here; [cmd_text] is the text the script builds for each. *)

Record PrefixEntry : Type := {
  prefix : string;
  seqno : Z
}.

#[global] Instance PrefixEntry_eq_dec : EqDecision PrefixEntry.
Proof. solve_decision. Defined.

Inductive Cmd : Type :=
  | Enable
  | Configure
  | End_
  | ShowIpPrefixList (name : string)
  | IpPrefixListPermit (name net : string)
  | NoIpPrefixListSeq (name : string) (seq : Z).

Definition cmd_text (c : Cmd) : string :=
  match c with
  | Enable => "enable"
  | Configure => "configure"
  | End_ => "end"
  | ShowIpPrefixList name => "show ip prefix-list " +:+ name
  | IpPrefixListPermit name net => "ip prefix-list " +:+ name +:+ " permit " +:+ net
  | NoIpPrefixListSeq name seq => "no ip prefix-list " +:+ name +:+ " seq " +:+ Py.str seq
  end.

(** The state of the command API: serving, its socket file missing, or
    the socket present but the call failing. *)
Inductive ApiStatus : Type := Serving | SocketMissing | Faulting.

Record Switch : Type := {
  api : ApiStatus;
  prefix_lists : gmap string (list PrefixEntry)
}.

(** Modelled from the spec: the rule store of the switch, which is not part
    of the script.  [listEntries] gives the entries of a list (none when the
    list does not exist), [insertEntry] appends a permit entry, [removeEntry]
    removes by sequence number.  A new entry takes the sequence number ten
    above the highest one in the list. *)
Module Store.

Definition next_seqno (es : list PrefixEntry) : Z :=
  foldr (fun e m => Z.max (seqno e) m) 0 es + 10.

Definition entries (name : string) (m : gmap string (list PrefixEntry))
  : list PrefixEntry :=
  default [] (m !! name).

Definition insertEntry (name net : string) (m : gmap string (list PrefixEntry))
  : gmap string (list PrefixEntry) :=
  let es := entries name m in
  <[name := es ++ [{| prefix := net; seqno := next_seqno es |}]]> m.

Definition removeEntry (name : string) (seq : Z) (m : gmap string (list PrefixEntry))
  : gmap string (list PrefixEntry) :=
  match m !! name with
  | Some es => <[name := filter (fun e => seqno e ≠ seq) es]> m
  | None => m
  end.

(** The [ipPrefixLists] field of the answer to [show ip prefix-list name]:
    a dictionary holding the named list when it exists. *)
Definition show (name : string) (m : gmap string (list PrefixEntry))
  : gmap string (list PrefixEntry) :=
  match m !! name with
  | Some es => {[ name := es ]}
  | None => ∅
  end.

Definition exec (c : Cmd) (m : gmap string (list PrefixEntry))
  : gmap string (list PrefixEntry) * gmap string (list PrefixEntry) :=
  match c with
  | ShowIpPrefixList name => (m, show name m)
  | IpPrefixListPermit name net => (insertEntry name net m, ∅)
  | NoIpPrefixListSeq name seq => (removeEntry name seq m, ∅)
  | Enable | Configure | End_ => (m, ∅)
  end.

Fixpoint exec_all (cs : list Cmd) (m : gmap string (list PrefixEntry))
  : gmap string (list PrefixEntry) * list (gmap string (list PrefixEntry)) :=
  match cs with
  | [] => (m, [])
  | c :: cs' =>
      let '(m1, r) := exec c m in
      let '(m2, rs) := exec_all cs' m1 in
      (m2, r :: rs)
  end.

(** The number of entries of a list that carry a given prefix. *)
Definition matching (name net : string) (m : gmap string (list PrefixEntry)) : nat :=
  List.length (filter (fun e => prefix e = net) (entries name m)).

End Store.

(** ** Effects

    What the script does to the outside, in order: log lines, syslog
    notices, and calls of the command API.  The three notices are kept
    structured, like the commands; [notice_text] is the message built for
    each and [syslog_text] the line handed to [syslog.syslog]. *)

Inductive Level : Type := Debug | Info | Error.

Inductive Notice : Type :=
  | TargetAvailable (host : string)
  | TargetRemoved (host name : string)
  | TargetDead (host name : string).

Definition notice_text (n : Notice) : string :=
  match n with
  | TargetAvailable host => "Target " +:+ host +:+ " is available"
  | TargetRemoved host name =>
      "Target " +:+ host +:+ " removed from " +:+ name +:+ " prefix-list"
  | TargetDead host name =>
      "Target " +:+ host +:+ " is dead - added to " +:+ name +:+ " prefix-list"
  end.

Inductive Action : Type :=
  | Log (lvl : Level) (text : string)
  | Syslog (n : Notice)
  | RunCmds (cmds : list Cmd)
  | Close.

#[global] Instance Notice_eq_dec : EqDecision Notice.
Proof. solve_decision. Defined.

#[global] Instance Level_eq_dec : EqDecision Level.
Proof. solve_decision. Defined.

#[global] Instance Cmd_eq_dec : EqDecision Cmd.
Proof. solve_decision. Defined.

#[global] Instance Action_eq_dec : EqDecision Action.
Proof. solve_decision. Defined.

(** A computation runs against the switch, and gives the actions it
    performed, the switch afterwards, and a value or the failure that
    stopped it. *)
Definition M (A : Type) : Type := Switch -> list Action * Switch * Res A.

#[global] Instance M_ret : MRet M := fun A a sw => ([], sw, Ok a).

#[global] Instance M_bind : MBind M := fun A B k m sw =>
  match m sw with
  | (t1, sw1, Ok a) =>
      let '(t2, sw2, r) := k a sw1 in (t1 ++ t2, sw2, r)
  | (t1, sw1, Err f) => (t1, sw1, Err f)
  end.

Definition emit (a : Action) : M unit := fun sw => ([a], sw, Ok tt).

Definition lift {A} (r : Res A) : M A := fun sw => ([], sw, r).

(** ** Global configuration settings *)

Definition syslogFormat : string := "%VALIDATE_FILTER_IP-5-LOG".
Definition prefix_list_name : string := "SCRIPTED_ROUTE_FILTER".

Fixpoint spaces (n : nat) : string :=
  match n with
  | O => EmptyString
  | S n' => String " " (spaces n')
  end.

(** [logStr.format(a, b)] with [logStr = '{:27} {}']. *)
Definition logStr_format (a b : string) : string :=
  a +:+ spaces (27 - String.length a) +:+ " " +:+ b.

Definition syslog_text (n : Notice) : string :=
  syslogFormat +:+ ": Log msg: " +:+ notice_text n.

(** [Notice.syslog] *)
Definition Notice_syslog (n : Notice) : M unit := emit (Syslog n).

(** ** The command API client *)

Definition socket_message : string :=
  "Socket API not available: enable it via...
  management api http-commands
    protocol unix-socket
    no shutdown".

Definition build_connection : M unit := fun sw =>
  match api sw with
  | SocketMissing => ([], sw, Err (SystemExit socket_message))
  | _ => ([], sw, Ok tt)
  end.

(** [switch_api.runCmds(1, cmds)]: the call raises when the API is not
    serving; otherwise the switch executes the commands in order. *)
Definition runCmds (cmds : list Cmd) : M (list (gmap string (list PrefixEntry))) :=
  fun sw =>
    match api sw with
    | Serving =>
        let '(m, rs) := Store.exec_all cmds (prefix_lists sw) in
        ([RunCmds cmds], {| api := api sw; prefix_lists := m |}, Ok rs)
    | _ => ([RunCmds cmds], sw, Err (Uncaught "socket.error"))
    end.

(** The [while result: iterate = result.pop()] loop of [check_filter]; the
    entries are taken from the end of the list, so [stack] is the list
    reversed. *)
Fixpoint pop_loop (net31 name : string) (stack : list PrefixEntry) : M (bool * Z) :=
  match stack with
  | [] => mret (false, 0)
  | iterate :: rest =>
      if String.eqb (prefix iterate) net31 then
        _ ← emit (Log Debug (logStr_format "network /31 found in:" name)) ;
        _ ← emit (Log Debug (logStr_format "sequence number:" (Py.str (seqno iterate)))) ;
        mret (true, seqno iterate)
      else pop_loop net31 name rest
  end.

(** [check_filter], for the major version [py] of the interpreter
    ([sys.version_info[0]]): the membership test is written
    [result.has_key(...)], a method that dictionaries have under Python 2
    only; under Python 3 the test raises [AttributeError], after the
    connection was closed. *)
Definition check_filter (py : Z) (net31 name : string) : M (bool * Z) :=
  _ ← build_connection ;
  rs ← runCmds [ShowIpPrefixList name] ;
  result ← lift (Py.index rs 0) ;
  _ ← emit Close ;
  if py <? 3 then
    match result !! name with
    | Some es => pop_loop net31 name (rev es)
    | None =>
        _ ← emit (Log Debug (logStr_format "prefix-list does not exist:" name)) ;
        mret (false, 0)
    end
  else lift (Err (Uncaught "AttributeError")).

Definition add_filter (net31 name : string) : M unit :=
  _ ← build_connection ;
  _ ← runCmds [Enable; Configure; IpPrefixListPermit name net31; End_] ;
  emit Close.

Definition remove_filter (seq : Z) (name : string) : M unit :=
  _ ← build_connection ;
  _ ← runCmds [Enable; Configure; NoIpPrefixListSeq name seq; End_] ;
  emit Close.

(** ** [main]

    [args] holds what [main] reads of the parsed command line: the
    dampening amount ([-D], an integer, 3 by default) and the first host
    ([args.host[0]]; [nargs='+'] makes the list non-empty).  The three
    variables of [main] are [dampeningDead], [dampeningAlive], [wasAlive]. *)

Record Args : Type := {
  dampening : Z;
  host0 : string
}.

Record Vars : Type := {
  dampeningDead : Z;
  dampeningAlive : Z;
  wasAlive : bool
}.

#[global] Instance Vars_eq_dec : EqDecision Vars.
Proof. solve_decision. Defined.

(** The result [alive, response] of [check.isAlive()], the prober. *)
Inductive ProbeOutcome : Type :=
  | Reachable (response : string)
  | Unreachable.

Definition is_reachable (o : ProbeOutcome) : bool :=
  match o with
  | Reachable _ => true
  | Unreachable => false
  end.

Definition available_notice (args : Args) : Notice :=
  TargetAvailable (host0 args).

Definition removed_notice (args : Args) : Notice :=
  TargetRemoved (host0 args) prefix_list_name.

Definition dead_notice (args : Args) : Notice :=
  TargetDead (host0 args) prefix_list_name.

Definition initial_vars : Vars :=
  {| dampeningDead := 0; dampeningAlive := 0; wasAlive := true |}.

(** [main] up to the polling loop: the /31 of the target and the first
    look at the prefix-list.  (Argument parsing, the logging set-up and
    [checkOS] come before and touch neither the variables nor the switch.) *)
Definition main_start (py : Z) (args : Args) : M (string * Vars) :=
  let v := initial_vars in
  net31 ← lift (network_s31 (host0 args)) ;
  _ ← emit (Log Debug (logStr_format "network /31 for host:" net31)) ;
  '(filtered, _) ← check_filter py net31 prefix_list_name ;
  if (filtered : bool) then
    if wasAlive v then
      _ ← emit (Log Info (logStr_format "Target already filtered " prefix_list_name)) ;
      mret (net31, {| dampeningDead := dampeningDead v;
                      dampeningAlive := dampeningAlive v;
                      wasAlive := false |})
    else mret (net31, v)
  else mret (net31, v).

(** The resurrection branch after its notice: [# remove filter if in place]. *)
Definition remove_if_in_place (py : Z) (args : Args) (net31 : string) : M unit :=
  '(filtered, seq) ← check_filter py net31 prefix_list_name ;
  if (filtered : bool) then
    _ ← remove_filter seq prefix_list_name ;
    _ ← emit (Log Error (logStr_format "Target removed from prefix-list:" prefix_list_name)) ;
    Notice_syslog (removed_notice args)
  else mret tt.

(** The death branch: warning, notice, [# Set filter]. *)
Definition set_filter (args : Args) (net31 : string) : M unit :=
  _ ← emit (Log Error (logStr_format "Warning:" "Target is dead")) ;
  _ ← Notice_syslog (dead_notice args) ;
  add_filter net31 prefix_list_name.

(** One pass of the [while True] loop, from the probe result on. *)
Definition loop_body (py : Z) (args : Args) (net31 : string) (v : Vars)
    (o : ProbeOutcome) : M Vars :=
  v' ← match o with
       | Reachable response =>
           _ ← emit (Log Info (logStr_format "Target alive. Response:" response)) ;
           let dead := 0 in
           if negb (wasAlive v) then
             if dampeningAlive v <? dampening args then
               let alive := dampeningAlive v + 1 in
               _ ← emit (Log Info "Dampening in progress") ;
               _ ← emit (Log Debug (logStr_format
                          "Remaining successes before assuming resurrection:"
                          (Py.str alive))) ;
               mret {| dampeningDead := dead; dampeningAlive := alive;
                       wasAlive := wasAlive v |}
             else if dampeningAlive v =? dampening args then
               _ ← emit (Log Error "Target resurrected!") ;
               _ ← Notice_syslog (available_notice args) ;
               _ ← remove_if_in_place py args net31 ;
               mret {| dampeningDead := dead; dampeningAlive := 0; wasAlive := true |}
             else
               mret {| dampeningDead := dead; dampeningAlive := dampeningAlive v;
                       wasAlive := wasAlive v |}
           else
             mret {| dampeningDead := dead; dampeningAlive := dampeningAlive v;
                     wasAlive := wasAlive v |}
       | Unreachable =>
           let dead := dampeningDead v + 1 in
           let alive := 0 in
           if wasAlive v && (dampening args <=? dead) then
             _ ← set_filter args net31 ;
             mret {| dampeningDead := dead; dampeningAlive := alive; wasAlive := false |}
           else
             mret {| dampeningDead := dead; dampeningAlive := alive;
                     wasAlive := wasAlive v |}
       end ;
  _ ← emit (Log Debug "") ;
  mret v'.

(** The loop over the probe results seen before the interrupt.  A failure
    in a pass ends the loop: the [try] only catches [KeyboardInterrupt]. *)
Fixpoint main_loop (py : Z) (args : Args) (net31 : string) (os : list ProbeOutcome)
    (v : Vars) : M Vars :=
  match os with
  | [] => mret v
  | o :: os' =>
      v' ← loop_body py args net31 v o ;
      main_loop py args net31 os' v'
  end.

Definition main (py : Z) (args : Args) (os : list ProbeOutcome) : M Vars :=
  nv ← main_start py args ;
  main_loop py args nv.1 os nv.2.

(** ** Reading a run

    The verdict changes a pass announces, read off its syslog notices. *)

Inductive Transition : Type := BecameDead | BecameAlive.

#[global] Instance Transition_eq_dec : EqDecision Transition.
Proof. solve_decision. Defined.

Definition is_dead_notice (a : Action) : bool :=
  match a with
  | Syslog (TargetDead _ _) => true
  | _ => false
  end.

Definition is_available_notice (a : Action) : bool :=
  match a with
  | Syslog (TargetAvailable _) => true
  | _ => false
  end.

Definition transition_of (t : list Action) : option Transition :=
  if existsb is_dead_notice t then Some BecameDead
  else if existsb is_available_notice t then Some BecameAlive
  else None.

(** The command lists a pass sent to the switch. *)
Definition api_calls (t : list Action) : list (list Cmd) :=
  omap (fun a => match a with RunCmds cs => Some cs | _ => None end) t.

(** The notices a pass sent to syslog. *)
Definition notices (t : list Action) : list Notice :=
  omap (fun a => match a with Syslog n => Some n | _ => None end) t.

(** The transition of each pass of a run, pass by pass, up to a failure. *)
Fixpoint transitions (py : Z) (args : Args) (net31 : string) (os : list ProbeOutcome)
    (v : Vars) (sw : Switch) : list (option Transition) :=
  match os with
  | [] => []
  | o :: os' =>
      match loop_body py args net31 v o sw with
      | (t, sw', Ok v') => transition_of t :: transitions py args net31 os' v' sw'
      | (t, _, Err _) => [transition_of t]
      end
  end.

(** The number of outcomes of one kind at the end of a history. *)
Fixpoint streak (p : ProbeOutcome -> bool) (rev_history : list ProbeOutcome) : Z :=
  match rev_history with
  | [] => 0
  | o :: h => if p o then streak p h + 1 else 0
  end.

Definition trailing (p : ProbeOutcome -> bool) (history : list ProbeOutcome) : Z :=
  streak p (rev history).

(** ** Addresses, as the claims speak of them *)

(** The text [a.b.c.d] of four numbers. *)
Definition dotted (a b c d : Z) : string :=
  Py.str a +:+ "." +:+ Py.str b +:+ "." +:+ Py.str c +:+ "." +:+ Py.str d.

Definition is_octet (n : Z) : Prop := 0 <= n <= 255.

(** Following the specification's words, "four dot-separated octets in
    range 0-255": a field is a non-empty run of decimal digits whose value
    is at most 255, and there are exactly four fields. *)
Definition octet_text (p : string) : bool :=
  match Py.int p with
  | Some n => n <=? 255
  | None => false
  end.

Definition dotted_quad (s : string) : bool :=
  match Py.split "." s with
  | [a; b; c; d] => octet_text a && octet_text b && octet_text c && octet_text d
  | _ => false
  end.

(** A field that is the decimal text of an octet. *)
Definition octet_field (q : string) : Prop := exists n, is_octet n /\ q = Py.str n.

(** The lower address of the pair of [d]: [d] itself when even, [d - 1]
    when odd. *)
Definition pair_base (d : Z) : Z := if Z.odd d then d - 1 else d.

(** The parser's scan of a piece of text, for reasoning by pieces. *)
Fixpoint pton_run (src : string) (st : pton_state) : option pton_state :=
  match src with
  | EmptyString => Some st
  | String ch r =>
      match pton_step ch st with
      | Some st' => pton_run r st'
      | None => None
      end
  end.

(** What the proofs need of the decimal text of one octet, as a check
    that can be run over all 256 of them. *)
Definition reads_octet (n k : Z) : bool :=
  match pton_run (Py.str n) {| tp_val := 0; saw_digit := false; octets := k |} with
  | Some st => (tp_val st =? n) && saw_digit st && (octets st =? k + 1)
  | None => false
  end.

Definition octet_str_ok (n : Z) : bool :=
  negb (Py.contains ":" (Py.str n)) &&
  negb (Py.contains "000" (Py.str n)) &&
  negb (Py.contains "." (Py.str n)) &&
  match Py.int (Py.str n) with Some m => m =? n | None => false end &&
  forallb (reads_octet n) [0; 1; 2; 3].

(** The character of a decimal digit, and the check that appending a
    digit to the text of a number gives the text of ten times it plus the
    digit, over the numbers the parser can hold while an octet goes on. *)
Definition digit_char (d : Z) : ascii := ascii_of_N (Z.to_N (48 + d)).

Definition digit_str_ok (d : Z) : bool :=
  String.eqb (Py.str d) (String (digit_char d) EmptyString).

Definition append_digit_ok (cur d : Z) : bool :=
  String.eqb (Py.str (cur * 10 + d)) (Py.str cur +:+ String (digit_char d) EmptyString).

(** [c.join(parts)] *)
Fixpoint join (c : ascii) (parts : list string) : string :=
  match parts with
  | [] => EmptyString
  | [p] => p
  | p :: ps => p +:+ String c (join c ps)
  end.

(** ** The loop without its effects

    What [check_filter] answers and logs, and how a pass changes the
    variables and which verdict change it announces, as plain functions of
    the store, the variables and the probe result.  The lemmas below show
    that the script computes exactly these. *)

Definition last_match (net31 : string) (es : list PrefixEntry) : option PrefixEntry :=
  List.find (fun e => String.eqb (prefix e) net31) (rev es).

Definition check_result (net31 : string) (es : list PrefixEntry) : bool * Z :=
  match last_match net31 es with
  | Some e => (true, seqno e)
  | None => (false, 0)
  end.

Definition found_log (net31 name : string) (es : list PrefixEntry) : list Action :=
  match last_match net31 es with
  | Some e => [Log Debug (logStr_format "network /31 found in:" name);
               Log Debug (logStr_format "sequence number:" (Py.str (seqno e)))]
  | None => []
  end.

Definition check_log (net31 name : string) (m : gmap string (list PrefixEntry))
  : list Action :=
  match m !! name with
  | Some es => found_log net31 name es
  | None => [Log Debug (logStr_format "prefix-list does not exist:" name)]
  end.

Definition next_vars (D : Z) (v : Vars) (o : ProbeOutcome) : Vars :=
  match o with
  | Reachable _ =>
      if wasAlive v then
        {| dampeningDead := 0; dampeningAlive := dampeningAlive v; wasAlive := true |}
      else if dampeningAlive v <? D then
        {| dampeningDead := 0; dampeningAlive := dampeningAlive v + 1; wasAlive := false |}
      else if dampeningAlive v =? D then
        {| dampeningDead := 0; dampeningAlive := 0; wasAlive := true |}
      else
        {| dampeningDead := 0; dampeningAlive := dampeningAlive v; wasAlive := false |}
  | Unreachable =>
      {| dampeningDead := dampeningDead v + 1; dampeningAlive := 0;
         wasAlive := wasAlive v && negb (D <=? dampeningDead v + 1) |}
  end.

Definition verdict (D : Z) (v : Vars) (o : ProbeOutcome) : option Transition :=
  match o with
  | Reachable _ =>
      if negb (wasAlive v) && negb (dampeningAlive v <? D) && (dampeningAlive v =? D)
      then Some BecameAlive else None
  | Unreachable =>
      if wasAlive v && (D <=? dampeningDead v + 1) then Some BecameDead else None
  end.

Fixpoint verdicts (D : Z) (os : list ProbeOutcome) (v : Vars) : list (option Transition) :=
  match os with
  | [] => []
  | o :: os' => verdict D v o :: verdicts D os' (next_vars D v o)
  end.

Definition run_vars (D : Z) (os : list ProbeOutcome) (v : Vars) : Vars :=
  fold_left (next_vars D) os v.

Definition is_unreachable (o : ProbeOutcome) : bool := negb (is_reachable o).

(** The failure of a call of the command API when it is not serving. *)
Definition api_failure (st : ApiStatus) : Failure :=
  match st with
  | SocketMissing => SystemExit socket_message
  | _ => Uncaught "socket.error"
  end.

(** ** Statements about a pass after a history

    [pre] is the history of probe results since the loop started with the
    variables [v0]; [o] is the next result.  The statement speaks of the
    pass that handles [o], once the loop has got to it with the variables
    [v] and the switch [sw1]: its actions [t], the switch after it [sw2]
    and its result [r].  The loop does get to it under Python 2, and
    under any interpreter as long as no resurrection was announced before
    (the resurrection is the one branch that calls [check_filter]). *)


(** ** The prober: [checkOS] and [checkICMP]

    [checkOS] gives the two settings of [ping] that depend on the system.
    [isAlive] builds the command line, runs it, and reads the verdict off
    the return code and the latency off the output.  The log lines of the
    prober are kept structured, with the value logged. *)

Record OsSettings : Type := {
  timeUnit : Z;
  sourceSetting : string
}.

Inductive ProbeLog : Type :=
  | ErrorUnsupportedOS
  | DebugPythonVersion (major : Z)
  | DebugCommand (command : list string)
  | InfoError (error : string)
  | DebugOutput (output : string)
  | DebugPingResult (line : string).

(** [checkOS], on the name [platform.system()] gives. *)
Definition checkOS (os : string) : list ProbeLog * OsSettings :=
  if String.eqb os "Linux" then
    ([], {| timeUnit := 1; sourceSetting := "-I" |})
  else if String.eqb os "Darwin" then
    ([], {| timeUnit := 1000; sourceSetting := "-S" |})
  else
    ([ErrorUnsupportedOS], {| timeUnit := 1; sourceSetting := "-I" |}).

(** What [isAlive] reads of the parsed command line: [-t] (an integer, 1
    by default) and [-s] ([None] when not given). *)
Record ProbeArgs : Type := {
  timeout : Z;
  source : option string
}.

(** What running the command gives back. *)
Record Completed : Type := {
  returncode : Z;
  stdout : string;
  stderr : string
}.

Definition newline : ascii := "010".

(** [l[-1]] *)
Definition last_item {A} (l : list A) : Res A :=
  match rev l with
  | x :: _ => Ok x
  | [] => Err (Uncaught "IndexError")
  end.

Definition nonempty (s : string) : bool :=
  match s with
  | EmptyString => false
  | String _ _ => true
  end.

(** [bytes.decode('ascii')] *)
Fixpoint is_ascii (b : string) : bool :=
  match b with
  | EmptyString => true
  | String c r => (N_of_ascii c <? 128)%N && is_ascii r
  end.

Definition decode_ascii (b : string) : Res string :=
  if is_ascii b then Ok b else Err (Uncaught "UnicodeDecodeError").

(** [checkICMP.getLatency]: the log line written before the parsing goes
    on, and the average or the [IndexError] of the first missing field. *)
Definition getLatency (output : string) : list ProbeLog * Res string :=
  let outputLines := Py.split newline output in
  match last_item (List.filter nonempty outputLines) with
  | Err f => ([], Err f)
  | Ok lastNonEmpty =>
      ([DebugPingResult lastNonEmpty],
       timingData ← Py.index (Py.split "=" lastNonEmpty) 1 ;
       let timingStats := Py.split "/" timingData in
       pingAvg ← Py.index timingStats 1 ;
       Ok (pingAvg +:+ " ms"))
  end.

(** The command line of [isAlive]. *)
Definition ping_command (os : OsSettings) (pargs : ProbeArgs) (host : string)
  : list string :=
  let src_exists :=
    match source pargs with
    | Some s => nonempty s
    | None => false
    end in
  ["ping"] ++ ["-n"] ++ ["-c 1"] ++ ["-t 1"] ++
  ["-W " +:+ Py.str (timeout pargs * timeUnit os)] ++
  (if src_exists
   then [sourceSetting os +:+ default "None" (source pargs)]
   else []) ++
  [host].

(** [checkICMP.isAlive], for the major version [py] of the interpreter and
    the system [run] that executes a command line and waits for it
    ([subprocess.Popen] and [wait] under Python 2, [subprocess.run] under
    Python 3): running gives the completed process, or the exception the
    [subprocess] call raised (no [ping] to execute, say), which nothing in
    [isAlive] catches.  The second component of the result is the latency
    text, [None] standing for the initial [latency = 0]. *)
Definition isAlive (py : Z) (run : list string -> Res Completed)
    (os : OsSettings) (pargs : ProbeArgs) (host : string)
  : list ProbeLog * Res (bool * option string) :=
  let command := ping_command os pargs host in
  let log0 := [DebugPythonVersion py; DebugCommand command] in
  match run command with
  | Err f => (log0, Err f)
  | Ok proc =>
      (* the branch of the running interpreter: output, result, log lines *)
      let branch : list ProbeLog * Res (string * bool) :=
        if py <? 3 then
          if returncode proc =? 0 then
            ([], output ← decode_ascii (stdout proc) ; Ok (output, true))
          else
            ([InfoError "The ICMP check did not succeed"], Ok (EmptyString, false))
        else
          if returncode proc =? 0 then
            ([], output ← decode_ascii (stdout proc) ; Ok (output, true))
          else
            match decode_ascii (stderr proc) with
            | Err f => ([], Err f)
            | Ok text =>
                let error := default EmptyString (head (Py.split newline text)) in
                let error := if nonempty error then error
                             else "The ICMP check did not succeed" in
                ([InfoError error], Ok (EmptyString, false))
            end
      in
      match branch with
      | (log1, Err f) => (log0 ++ log1, Err f)
      | (log1, Ok (output, result)) =>
          if nonempty output then
            match getLatency output with
            | (log2, Ok latency) =>
                (log0 ++ log1 ++ [DebugOutput output] ++ log2, Ok (result, Some latency))
            | (log2, Err f) =>
                (log0 ++ log1 ++ [DebugOutput output] ++ log2, Err f)
            end
          else (log0 ++ log1, Ok (result, None))
      end
  end.

(** The pair [alive, response] as the loop uses it: [response] is only
    logged, through [str.format], which writes the initial [0] as [0]. *)
Definition outcome_of (r : bool * option string) : ProbeOutcome :=
  if r.1 then Reachable (default "0" r.2) else Unreachable.

(** ** Log levels: [parseArgs] and [setLogging] *)

Record Verbosity : Type := {
  verbose : bool;
  veryverbose : bool
}.

(** The end of [parseArgs]: [-V] implies [-v]. *)
Definition parseArgs_verbosity (a : Verbosity) : Verbosity :=
  if veryverbose a then {| verbose := true; veryverbose := veryverbose a |} else a.

(** [setLogging]: the level below which lines are dropped. *)
Definition setLogging (a : Verbosity) : Level :=
  let logLevel := Error in
  let logLevel := if verbose a then Info else logLevel in
  let logLevel := if veryverbose a then Debug else logLevel in
  logLevel.

Definition level_rank (l : Level) : Z :=
  match l with
  | Debug => 10
  | Info => 20
  | Error => 40
  end.

(** The log lines of a pass that the logger lets through. *)
Definition displayed (threshold : Level) (t : list Action) : list string :=
  omap (fun a => match a with
                 | Log l text =>
                     if level_rank threshold <=? level_rank l then Some text else None
                 | _ => None
                 end) t.

(** ** Concrete inputs *)

Module Ex.

Definition args (D : Z) : Args := {| dampening := D; host0 := "10.0.0.5" |}.

Definition net31 : string := "10.0.0.4/31".

(** A serving switch with no prefix-list at all. *)
Definition bare : Switch := {| api := Serving; prefix_lists := ∅ |}.

(** A switch whose list already holds the /31 of the target. *)
Definition filtered (st : ApiStatus) : Switch :=
  {| api := st;
     prefix_lists :=
       {[ prefix_list_name := [ {| prefix := "192.0.2.0/24"; seqno := 10 |};
                                {| prefix := net31; seqno := 20 |} ] ]} |}.

Definition dead_vars : Vars :=
  {| dampeningDead := 0; dampeningAlive := 0; wasAlive := false |}.

Definition R : ProbeOutcome := Reachable "0.045 ms".
Definition U : ProbeOutcome := Unreachable.

End Ex.

(** * Theorems *)

(** ** Strings and the address parser *)

Lemma contains_app c s1 s2 :
  Py.contains c (s1 +:+ s2) = Py.contains c s1 || Py.contains c s2.
Proof.
  induction s1 as [|x s1 IH]; simpl; [done|].
  destruct (Ascii.eqb x c); [done|apply IH].
Qed.

Lemma split_no_sep c s : Py.contains c s = false -> Py.split c s = [s].
Proof.
  induction s as [|x s IH]; simpl; [done|].
  destruct (Ascii.eqb x c); [done|].
  intros H. by rewrite (IH H).
Qed.

Lemma split_app_sep c s1 s2 :
  Py.contains c s1 = false ->
  Py.split c (s1 +:+ String c s2) = s1 :: Py.split c s2.
Proof.
  induction s1 as [|x s1 IH]; simpl.
  - intros _. by rewrite Ascii.eqb_refl.
  - destruct (Ascii.eqb x c); [done|].
    intros H. by rewrite (IH H).
Qed.

Lemma pton_loop_app s1 s2 st :
  pton_loop (s1 +:+ s2) st =
  match pton_run s1 st with
  | Some st' => pton_loop s2 st'
  | None => false
  end.
Proof.
  revert st. induction s1 as [|x s1 IH]; intros st; simpl; [done|].
  destruct (pton_step x st); [apply IH|done].
Qed.

Lemma pton_loop_run s st :
  pton_loop s st =
  match pton_run s st with
  | Some st' => negb (octets st' <? 4)
  | None => false
  end.
Proof.
  revert st. induction s as [|x s IH]; intros st; simpl; [done|].
  destruct (pton_step x st); [apply IH|done].
Qed.

Lemma octets_checked :
  forallb octet_str_ok (map Z.of_nat (seq 0 256)) = true.
Proof. vm_compute. reflexivity. Qed.

Lemma octet_str_ok_holds n : is_octet n -> octet_str_ok n = true.
Proof.
  intros [H0 H255].
  pose proof octets_checked as H.
  rewrite forallb_forall in H. apply H.
  apply in_map_iff. exists (Z.to_nat n). split; [lia|].
  apply in_seq. lia.
Qed.

Section Octet.
Variable n : Z.
Hypothesis Hn : is_octet n.

Let ok := octet_str_ok_holds n Hn.

Lemma str_no_colon : Py.contains ":" (Py.str n) = false.
Proof using Hn.
  pose proof ok as H. unfold octet_str_ok in H.
  repeat (apply andb_prop in H; destruct H as [H ?]).
  by apply negb_true_iff.
Qed.

Lemma str_no_nul : Py.contains "000" (Py.str n) = false.
Proof using Hn.
  pose proof ok as H. unfold octet_str_ok in H.
  repeat (apply andb_prop in H; destruct H as [H ?]).
  by apply negb_true_iff.
Qed.

Lemma str_no_dot : Py.contains "." (Py.str n) = false.
Proof using Hn.
  pose proof ok as H. unfold octet_str_ok in H.
  repeat (apply andb_prop in H; destruct H as [H ?]).
  by apply negb_true_iff.
Qed.

Lemma int_str : Py.int (Py.str n) = Some n.
Proof using Hn.
  pose proof ok as H. unfold octet_str_ok in H.
  repeat (apply andb_prop in H; destruct H as [H ?]).
  destruct (Py.int (Py.str n)) as [m|]; [|done].
  f_equal. lia.
Qed.

Lemma pton_run_str k :
  k = 0 \/ k = 1 \/ k = 2 \/ k = 3 ->
  pton_run (Py.str n) {| tp_val := 0; saw_digit := false; octets := k |} =
  Some {| tp_val := n; saw_digit := true; octets := k + 1 |}.
Proof using Hn.
  intros Hk.
  pose proof ok as H. unfold octet_str_ok in H.
  repeat (apply andb_prop in H; destruct H as [H ?]).
  assert (Hr : reads_octet n k = true).
  { match goal with F : forallb _ _ = true |- _ =>
      rewrite forallb_forall in F; apply F end.
    simpl. lia. }
  unfold reads_octet in Hr.
  destruct (pton_run _ _) as [[v s o]|]; [|done]. simpl in Hr.
  repeat (apply andb_prop in Hr; destruct Hr as [Hr ?]).
  f_equal. f_equal; [lia|done|lia].
Qed.
End Octet.

Ltac dots_to_cons :=
  repeat match goal with
    | |- context [ "." +:+ ?s ] => change ("." +:+ s) with (String "." s)
    end.

Lemma dotted_no_colon a b c d :
  is_octet a -> is_octet b -> is_octet c -> is_octet d ->
  Py.contains ":" (dotted a b c d) = false.
Proof.
  intros Ha Hb Hc Hd. unfold dotted.
  rewrite !contains_app, !str_no_colon by done. reflexivity.
Qed.

Lemma dotted_no_nul a b c d :
  is_octet a -> is_octet b -> is_octet c -> is_octet d ->
  Py.contains "000" (dotted a b c d) = false.
Proof.
  intros Ha Hb Hc Hd. unfold dotted.
  rewrite !contains_app, !str_no_nul by done. reflexivity.
Qed.

Lemma dotted_split a b c d :
  is_octet a -> is_octet b -> is_octet c -> is_octet d ->
  Py.split "." (dotted a b c d) = [Py.str a; Py.str b; Py.str c; Py.str d].
Proof.
  intros Ha Hb Hc Hd. unfold dotted.
  dots_to_cons.
  rewrite !split_app_sep by (by apply str_no_dot).
  rewrite split_no_sep by (by apply str_no_dot). reflexivity.
Qed.

Lemma dotted_accepted a b c d :
  is_octet a -> is_octet b -> is_octet c -> is_octet d ->
  inet_pton4 (dotted a b c d) = true.
Proof.
  intros Ha Hb Hc Hd. unfold dotted, inet_pton4.
  dots_to_cons.
  rewrite pton_loop_app, pton_run_str by (done || lia). simpl.
  rewrite pton_loop_app, pton_run_str by (done || lia). simpl.
  rewrite pton_loop_app, pton_run_str by (done || lia). simpl.
  rewrite pton_loop_run, pton_run_str by (done || lia). reflexivity.
Qed.

(** ** What the address parser accepts *)

Lemma append_cons x (s t : string) : String x s +:+ t = String x (s +:+ t).
Proof. reflexivity. Qed.

Lemma append_assoc (s1 s2 s3 : string) : (s1 +:+ s2) +:+ s3 = s1 +:+ (s2 +:+ s3).
Proof. induction s1 as [|x s1 IH]; [done|by rewrite !append_cons, IH]. Qed.

Lemma append_empty_r (s : string) : s +:+ EmptyString = s.
Proof. induction s as [|x s IH]; [done|by rewrite append_cons, IH]. Qed.

Lemma split_nonempty c s : Py.split c s <> [].
Proof.
  destruct s as [|x s]; simpl; [done|].
  destruct (Ascii.eqb x c); [done|]. by destruct (Py.split c s).
Qed.

Lemma join_split c s : join c (Py.split c s) = s.
Proof.
  induction s as [|x s IH]; simpl; [done|].
  pose proof (split_nonempty c s) as Hne.
  destruct (Py.split c s) as [|p ps]; [done|].
  destruct (Ascii.eqb_spec x c) as [->|Hxc].
  - simpl in *. by rewrite IH.
  - destruct ps; simpl in *; by rewrite <- IH.
Qed.

Lemma digit_of_char ch d :
  Py.digit_of ch = Some d -> 0 <= d <= 9 /\ ch = digit_char d /\ Ascii.eqb ch "." = false.
Proof.
  unfold Py.digit_of, digit_char. intros H.
  destruct (andb _ _) eqn:E; [|done]. injection H as <-.
  apply andb_prop in E as [E1 E2].
  split; [apply Z.leb_le in E1, E2; lia|]. split.
  - replace (48 + (Z.of_N (N_of_ascii ch) - 48)) with (Z.of_N (N_of_ascii ch)) by lia.
    by rewrite N2Z.id, ascii_N_embedding.
  - apply Ascii.eqb_neq. intros ->. vm_compute in E1. done.
Qed.

Lemma digits_checked :
  forallb digit_str_ok (map Z.of_nat (seq 0 10)) = true.
Proof. vm_compute. reflexivity. Qed.

Lemma str_digit d : 0 <= d <= 9 -> Py.str d = String (digit_char d) EmptyString.
Proof.
  intros Hd. pose proof digits_checked as H.
  rewrite forallb_forall in H. apply String.eqb_eq, H.
  apply in_map_iff. exists (Z.to_nat d). split; [lia|]. apply in_seq. lia.
Qed.

Lemma appends_checked :
  forallb (fun cur => forallb (append_digit_ok cur) (map Z.of_nat (seq 0 10)))
          (map Z.of_nat (seq 1 25)) = true.
Proof. vm_compute. reflexivity. Qed.

Lemma str_append_digit cur d :
  1 <= cur -> 0 <= d <= 9 -> cur * 10 + d <= 255 ->
  Py.str (cur * 10 + d) = Py.str cur +:+ String (digit_char d) EmptyString.
Proof.
  intros Hc Hd Hle. pose proof appends_checked as H.
  rewrite forallb_forall in H.
  specialize (H cur). rewrite forallb_forall in H.
  apply String.eqb_eq, H.
  - apply in_map_iff. exists (Z.to_nat cur). split; [lia|]. apply in_seq. lia.
  - apply in_map_iff. exists (Z.to_nat d). split; [lia|]. apply in_seq. lia.
Qed.

(** The invariant of the scan: what was read of the current field is the
    text of [tp_val], and the fields still to come are texts of octets. *)
Lemma pton_loop_fields s : forall cur saw oct,
  pton_loop s {| tp_val := cur; saw_digit := saw; octets := oct |} = true ->
  is_octet cur -> 0 <= oct <= 4 -> (saw = false -> oct <= 3 /\ cur = 0) ->
  exists p ps,
    Py.split "." s = p :: ps /\
    octet_field ((if saw then Py.str cur else EmptyString) +:+ p) /\
    Forall octet_field ps /\
    Z.of_nat (List.length ps) = 4 - (if saw then oct else oct + 1).
Proof.
  induction s as [|ch r IH]; intros cur saw oct Hrun Hcur Hoct Hsaw.
  - simpl in Hrun. apply negb_true_iff, Z.ltb_ge in Hrun.
    destruct saw; [|destruct Hsaw; [done|lia]].
    exists EmptyString, []. repeat split; [|constructor|simpl; lia].
    exists cur. by rewrite append_empty_r.
  - simpl in Hrun. unfold pton_step in Hrun. simpl in Hrun.
    destruct (Py.digit_of ch) as [d|] eqn:Ed.
    + apply digit_of_char in Ed as (Hd & -> & Hdot).
      destruct saw; simpl in Hrun.
      * destruct (cur =? 0) eqn:E0; [done|]. apply Z.eqb_neq in E0.
        destruct (255 <? cur * 10 + d) eqn:E255; [done|]. apply Z.ltb_ge in E255.
        destruct (IH _ _ _ Hrun) as (p & ps & Hsp & Hp & Hps & Hlen);
          [unfold is_octet in *; lia|done|done|].
        exists (String (digit_char d) p), ps. simpl. rewrite Hdot, Hsp.
        repeat split; [|done|done].
        destruct Hp as (n & Hn & Heq). exists n. split; [done|].
        rewrite <- Heq, str_append_digit by (unfold is_octet in *; lia).
        by rewrite append_assoc.
      * destruct Hsaw as [Ho3 ->]; [done|]. simpl in Hrun.
        replace (0 * 10 + d) with d in Hrun by lia.
        destruct (255 <? d) eqn:E255; [done|].
        destruct (4 <? oct + 1) eqn:E4; [done|].
        destruct (IH _ _ _ Hrun) as (p & ps & Hsp & Hp & Hps & Hlen);
          [unfold is_octet; lia|lia|done|].
        exists (String (digit_char d) p), ps. simpl. rewrite Hdot, Hsp.
        repeat split; [|done|done].
        destruct Hp as (n & Hn & Heq). exists n. split; [done|].
        rewrite <- Heq, str_digit by done. reflexivity.
    + destruct (Ascii.eqb_spec ch ".") as [->|Hne]; [|done].
      destruct saw; [|done]. simpl in Hrun.
      destruct (oct =? 4) eqn:E4; [done|]. apply Z.eqb_neq in E4.
      destruct (IH _ _ _ Hrun) as (p & ps & Hsp & Hp & Hps & Hlen);
        [unfold is_octet; lia|done|intros _; lia|].
      exists EmptyString, (p :: ps). simpl. rewrite Hsp.
      repeat split.
      * exists cur. by rewrite append_empty_r.
      * by constructor.
      * simpl in Hlen |- *. lia.
Qed.

Lemma accepted_is_dotted s :
  inet_pton4 s = true ->
  exists a b c d,
    is_octet a /\ is_octet b /\ is_octet c /\ is_octet d /\ s = dotted a b c d.
Proof.
  intros H. apply pton_loop_fields in H as (p & ps & Hsp & Hp & Hps & Hlen);
    [|unfold is_octet; lia|lia|intros _; lia].
  simpl in Hp, Hlen.
  destruct ps as [|q1 [|q2 [|q3 [|q4 ps]]]]; simpl in Hlen; try lia.
  destruct Hp as (a & Ha & Hpa). change (p = Py.str a) in Hpa. subst p.
  inversion Hps as [|? ? (b & Hb & ->) Hps1]; subst.
  inversion Hps1 as [|? ? (c & Hc & ->) Hps2]; subst.
  inversion Hps2 as [|? ? (d & Hd & ->) _]; subst.
  exists a, b, c, d. do 4 (split; [done|]).
  rewrite <- (join_split "." s), Hsp. reflexivity.
Qed.


Lemma valid_is_dotted address :
  is_valid_ipv4_address address = Ok true ->
  exists a b c d,
    is_octet a /\ is_octet b /\ is_octet c /\ is_octet d /\ address = dotted a b c d.
Proof.
  unfold is_valid_ipv4_address, socket_inet_pton.
  destruct (Py.contains "000" address); [done|].
  destruct (inet_pton4 address) eqn:E; [|done].
  intros _. by apply accepted_is_dotted.
Qed.

Lemma dotted_is_valid a b c d :
  is_octet a -> is_octet b -> is_octet c -> is_octet d ->
  is_valid_ipv4_address (dotted a b c d) = Ok true.
Proof.
  intros Ha Hb Hc Hd. unfold is_valid_ipv4_address, socket_inet_pton.
  by rewrite dotted_no_nul, dotted_accepted.
Qed.

Lemma network_s31_dotted a b c d :
  is_octet a -> is_octet b -> is_octet c -> is_octet d ->
  network_s31 (dotted a b c d) = Ok (dotted a b c (pair_base d) +:+ "/31").
Proof.
  intros Ha Hb Hc Hd. unfold network_s31.
  rewrite dotted_no_colon, dotted_is_valid by done. simpl.
  rewrite dotted_split by done. simpl.
  unfold Py.int_or_raise. rewrite int_str by done. simpl.
  unfold pair_base. rewrite <- Zodd_mod.
  destruct (Z.odd d); [|done].
  unfold dotted. by rewrite !append_assoc.
Qed.

Lemma pair_base_even d : Z.even (pair_base d) = true.
Proof.
  unfold pair_base. destruct (Z.odd d) eqn:E.
  - rewrite Z.even_sub. rewrite <- Z.negb_odd, E. reflexivity.
  - by rewrite <- Z.negb_odd, E.
Qed.

Lemma pair_base_octet d : is_octet d -> is_octet (pair_base d).
Proof.
  unfold pair_base, is_octet. intros Hd.
  destruct (Z.odd d) eqn:E; [|done].
  assert (d <> 0) by (intros ->; done). lia.
Qed.

(** C7, as stated, fails: the text [10.0.0.05] is four dot-separated
    octets in range 0-255, and [network_s31] exits on it, because
    [inet_pton] refuses an octet written with a leading zero. *)
Lemma C7_counterexample :
  dotted_quad "10.0.0.05" = true /\
  network_s31 "10.0.0.05" = Err (SystemExit (invalid_message "10.0.0.05")).
Proof. split; vm_compute; reflexivity. Qed.

(** C7, amended.  For every IPv4 address [a.b.c.d] in canonical dotted
    decimal, four octets between 0 and 255 each written without leading
    zeros, [network_s31] returns [a.b.c.(d-1)/31] when [d] is odd and
    [a.b.c.d/31] when [d] is even: the first three octets are kept, the
    fourth octet of the result is an even octet, and the suffix is [/31].
    [10.0.0.5] and [10.0.0.4] both give [10.0.0.4/31].  These are all the
    results there are: [network_s31] returns on no other text. *)
Theorem C7_network_s31_pairs (a b c d : Z) :
  is_octet a -> is_octet b -> is_octet c -> is_octet d ->
  network_s31 (dotted a b c d) = Ok (dotted a b c (pair_base d) +:+ "/31") /\
  (Z.odd d = true -> pair_base d = d - 1) /\
  (Z.even d = true -> pair_base d = d) /\
  Z.even (pair_base d) = true /\
  is_octet (pair_base d) /\
  network_s31 "10.0.0.5" = Ok "10.0.0.4/31" /\
  network_s31 "10.0.0.4" = Ok "10.0.0.4/31" /\
  (forall address r,
     network_s31 address = Ok r ->
     exists a' b' c' d',
       is_octet a' /\ is_octet b' /\ is_octet c' /\ is_octet d' /\
       address = dotted a' b' c' d' /\
       r = dotted a' b' c' (pair_base d') +:+ "/31").
Proof.
  intros Ha Hb Hc Hd.
  split; [by apply network_s31_dotted|].
  split; [unfold pair_base; by intros ->|].
  split; [unfold pair_base; rewrite <- Z.negb_odd; by destruct (Z.odd d)|].
  split; [apply pair_base_even|].
  split; [by apply pair_base_octet|].
  split; [reflexivity|]. split; [reflexivity|].
  intros address r H.
  assert (Hv : is_valid_ipv4_address address = Ok true).
  { revert H. unfold network_s31. destruct (Py.contains ":" address); [done|].
    by destruct (is_valid_ipv4_address address) as [[]|]. }
  apply valid_is_dotted in Hv as (a' & b' & c' & d' & Ha' & Hb' & Hc' & Hd' & ->).
  rewrite network_s31_dotted in H by done. injection H as <-.
  by exists a', b', c', d'.
Qed.

Lemma C7_network_s31_pairs_witness :
  is_octet 192 /\ is_octet 168 /\ is_octet 7 /\ is_octet 33 /\
  network_s31 (dotted 192 168 7 33) = Ok (dotted 192 168 7 (pair_base 33) +:+ "/31").
Proof.
  assert (H192 : is_octet 192) by (unfold is_octet; lia).
  assert (H168 : is_octet 168) by (unfold is_octet; lia).
  assert (H7 : is_octet 7) by (unfold is_octet; lia).
  assert (H33 : is_octet 33) by (unfold is_octet; lia).
  repeat (split; [assumption|]).
  exact (proj1 (C7_network_s31_pairs 192 168 7 33 H192 H168 H7 H33)).
Defined.

Lemma main_start_fatal (py : Z) args f sw :
  network_s31 (host0 args) = Err f -> main_start py args sw = ([], sw, Err f).
Proof. intros H. unfold main_start, lift, mbind, M_bind. by rewrite H. Qed.



(** ** The command API client *)

Lemma switch_eta sw : {| api := api sw; prefix_lists := prefix_lists sw |} = sw.
Proof. by destruct sw. Qed.

Lemma pop_loop_find net31 name stack sw :
  pop_loop net31 name stack sw =
  (match List.find (fun e => String.eqb (prefix e) net31) stack with
   | Some e => [Log Debug (logStr_format "network /31 found in:" name);
                Log Debug (logStr_format "sequence number:" (Py.str (seqno e)))]
   | None => []
   end, sw,
   Ok (match List.find (fun e => String.eqb (prefix e) net31) stack with
       | Some e => (true, seqno e)
       | None => (false, 0)
       end)).
Proof.
  induction stack as [|e rest IH]; simpl; [done|].
  destruct (String.eqb (prefix e) net31); [done|apply IH].
Qed.

Lemma check_filter_serving (py : Z) net31 name sw :
  py < 3 -> api sw = Serving ->
  check_filter py net31 name sw =
  ([RunCmds [ShowIpPrefixList name]; Close] ++ check_log net31 name (prefix_lists sw),
   sw, Ok (check_result net31 (Store.entries name (prefix_lists sw)))).
Proof.
  intros Hpy%Z.ltb_lt Hs.
  unfold check_filter, mbind, M_bind, build_connection, runCmds.
  rewrite Hs. simpl. rewrite switch_eta, Hs, Hpy.
  unfold check_log, check_result, found_log, last_match, Store.show, Store.entries.
  destruct (prefix_lists sw !! name) as [es|] eqn:E; simpl.
  - rewrite lookup_singleton_eq, pop_loop_find.
    by destruct (List.find _ (rev es)).
  - by rewrite lookup_empty.
Qed.

(** Under Python 3 the answer of the switch is fetched and the connection
    closed, and then [has_key] raises. *)
Lemma check_filter_py3 (py : Z) net31 name sw :
  3 <= py -> api sw = Serving ->
  check_filter py net31 name sw =
  ([RunCmds [ShowIpPrefixList name]; Close], sw, Err (Uncaught "AttributeError")).
Proof.
  intros Hpy%Z.ltb_ge Hs.
  unfold check_filter, mbind, M_bind, build_connection, runCmds.
  rewrite Hs. simpl. by rewrite switch_eta, Hs, Hpy.
Qed.

Lemma check_filter_failing (py : Z) net31 name sw :
  api sw <> Serving ->
  check_filter py net31 name sw =
  (match api sw with SocketMissing => [] | _ => [RunCmds [ShowIpPrefixList name]] end,
   sw, Err (api_failure (api sw))).
Proof.
  intros Hs. unfold check_filter, mbind, M_bind, build_connection, runCmds.
  destruct (api sw) eqn:E; [done| |]; simpl; rewrite ?E; reflexivity.
Qed.

Lemma add_filter_serving net31 name sw :
  api sw = Serving ->
  add_filter net31 name sw =
  ([RunCmds [Enable; Configure; IpPrefixListPermit name net31; End_]; Close],
   {| api := Serving;
      prefix_lists := Store.insertEntry name net31 (prefix_lists sw) |},
   Ok tt).
Proof.
  intros Hs. unfold add_filter, mbind, M_bind, build_connection, runCmds.
  rewrite Hs. simpl. by rewrite Hs.
Qed.

Lemma add_filter_failing net31 name sw :
  api sw <> Serving ->
  add_filter net31 name sw =
  (match api sw with
   | SocketMissing => []
   | _ => [RunCmds [Enable; Configure; IpPrefixListPermit name net31; End_]]
   end, sw, Err (api_failure (api sw))).
Proof.
  intros Hs. unfold add_filter, mbind, M_bind, build_connection, runCmds.
  destruct (api sw) eqn:E; [done| |]; simpl; rewrite ?E; reflexivity.
Qed.

Lemma remove_filter_serving seq name sw :
  api sw = Serving ->
  remove_filter seq name sw =
  ([RunCmds [Enable; Configure; NoIpPrefixListSeq name seq; End_]; Close],
   {| api := Serving;
      prefix_lists := Store.removeEntry name seq (prefix_lists sw) |},
   Ok tt).
Proof.
  intros Hs. unfold remove_filter, mbind, M_bind, build_connection, runCmds.
  rewrite Hs. simpl. by rewrite Hs.
Qed.

(** ** The store of the switch *)

Lemma entries_insertEntry name net m :
  Store.entries name (Store.insertEntry name net m) =
  Store.entries name m ++
    [{| prefix := net; seqno := Store.next_seqno (Store.entries name m) |}].
Proof. unfold Store.insertEntry, Store.entries. by rewrite lookup_insert_eq. Qed.

Lemma matching_insertEntry name net m :
  Store.matching name net (Store.insertEntry name net m) =
  S (Store.matching name net m).
Proof.
  unfold Store.matching. rewrite entries_insertEntry, filter_app, length_app.
  rewrite filter_cons_True by done. simpl. lia.
Qed.

Lemma entries_removeEntry name seq m :
  Store.entries name (Store.removeEntry name seq m) =
  filter (fun e => seqno e ≠ seq) (Store.entries name m).
Proof.
  unfold Store.removeEntry, Store.entries.
  destruct (m !! name) as [es|] eqn:E; simpl.
  - by rewrite lookup_insert_eq.
  - by rewrite E.
Qed.

(** ** The branches of the loop *)

Lemma bind_run {A B} (m : M A) (k : A -> M B) sw :
  (m ≫= k) sw =
  match m sw with
  | (t1, sw1, Ok a) => let '(t2, sw2, r) := k a sw1 in (t1 ++ t2, sw2, r)
  | (t1, sw1, Err f) => (t1, sw1, Err f)
  end.
Proof. reflexivity. Qed.

Ltac bind_step :=
  rewrite bind_run; unfold Notice_syslog, emit; cbv beta iota.

Lemma remove_if_in_place_serving (py : Z) args net31 sw :
  py < 3 -> api sw = Serving ->
  remove_if_in_place py args net31 sw =
  match last_match net31 (Store.entries prefix_list_name (prefix_lists sw)) with
  | Some e =>
      ([RunCmds [ShowIpPrefixList prefix_list_name]; Close]
         ++ check_log net31 prefix_list_name (prefix_lists sw)
         ++ [RunCmds [Enable; Configure;
                      NoIpPrefixListSeq prefix_list_name (seqno e); End_];
             Close;
             Log Error (logStr_format "Target removed from prefix-list:" prefix_list_name);
             Syslog (removed_notice args)],
       {| api := Serving;
          prefix_lists := Store.removeEntry prefix_list_name (seqno e) (prefix_lists sw) |},
       Ok tt)
  | None =>
      ([RunCmds [ShowIpPrefixList prefix_list_name]; Close]
         ++ check_log net31 prefix_list_name (prefix_lists sw),
       sw, Ok tt)
  end.
Proof.
  intros Hpy Hs. unfold remove_if_in_place.
  rewrite bind_run, check_filter_serving by done.
  unfold check_result.
  destruct (last_match _ _) as [e|]; simpl.
  - rewrite bind_run, remove_filter_serving by done. reflexivity.
  - by rewrite app_nil_r.
Qed.

Lemma remove_if_in_place_py3 (py : Z) args net31 sw :
  3 <= py -> api sw = Serving ->
  remove_if_in_place py args net31 sw =
  ([RunCmds [ShowIpPrefixList prefix_list_name]; Close], sw,
   Err (Uncaught "AttributeError")).
Proof.
  intros Hpy Hs. unfold remove_if_in_place.
  by rewrite bind_run, check_filter_py3.
Qed.

Lemma remove_if_in_place_failing (py : Z) args net31 sw :
  api sw <> Serving ->
  remove_if_in_place py args net31 sw =
  (match api sw with
   | SocketMissing => []
   | _ => [RunCmds [ShowIpPrefixList prefix_list_name]]
   end, sw, Err (api_failure (api sw))).
Proof.
  intros Hs. unfold remove_if_in_place.
  by rewrite bind_run, check_filter_failing.
Qed.

Lemma set_filter_serving args net31 sw :
  api sw = Serving ->
  set_filter args net31 sw =
  ([Log Error (logStr_format "Warning:" "Target is dead");
    Syslog (dead_notice args);
    RunCmds [Enable; Configure; IpPrefixListPermit prefix_list_name net31; End_];
    Close],
   {| api := Serving;
      prefix_lists := Store.insertEntry prefix_list_name net31 (prefix_lists sw) |},
   Ok tt).
Proof.
  intros Hs. unfold set_filter. do 2 bind_step.
  by rewrite add_filter_serving.
Qed.

Lemma set_filter_failing args net31 sw :
  api sw <> Serving ->
  set_filter args net31 sw =
  (Log Error (logStr_format "Warning:" "Target is dead")
     :: Syslog (dead_notice args)
     :: match api sw with
        | SocketMissing => []
        | _ => [RunCmds [Enable; Configure;
                         IpPrefixListPermit prefix_list_name net31; End_]]
        end,
   sw, Err (api_failure (api sw))).
Proof.
  intros Hs. unfold set_filter. do 2 bind_step.
  by rewrite add_filter_failing.
Qed.

Ltac quiet :=
  eexists; split; [reflexivity|split; [reflexivity|split; reflexivity]].

(** A pass that announces nothing touches nothing: it only logs, whatever
    the state of the switch. *)
Lemma loop_body_quiet (py : Z) args net31 v o sw :
  verdict (dampening args) v o = None ->
  exists t,
    loop_body py args net31 v o sw = (t, sw, Ok (next_vars (dampening args) v o)) /\
    api_calls t = [] /\ notices t = [] /\ transition_of t = None.
Proof.
  unfold verdict, loop_body, next_vars. intros H.
  destruct o as [response|]; rewrite bind_run.
  - destruct (wasAlive v) eqn:Ew; simpl in H |- *; [quiet|].
    destruct (dampeningAlive v <? dampening args) eqn:E1; simpl in H |- *; [quiet|].
    destruct (dampeningAlive v =? dampening args) eqn:E2; [done|quiet].
  - destruct (wasAlive v && (dampening args <=? dampeningDead v + 1)) eqn:E; [done|].
    assert (Hw : wasAlive v && negb (dampening args <=? dampeningDead v + 1) = wasAlive v)
      by (destruct (wasAlive v), (dampening args <=? dampeningDead v + 1); done).
    rewrite Hw. simpl. quiet.
Qed.

Lemma verdict_dead_inv D v o :
  verdict D v o = Some BecameDead ->
  o = Unreachable /\ wasAlive v = true /\ D <= dampeningDead v + 1.
Proof.
  unfold verdict. destruct o as [r|].
  - by destruct (_ && _).
  - destruct (wasAlive v); simpl; [|done].
    destruct (D <=? dampeningDead v + 1) eqn:E; [|done].
    apply Z.leb_le in E. done.
Qed.

Lemma verdict_alive_inv D v o :
  verdict D v o = Some BecameAlive ->
  (exists r, o = Reachable r) /\ wasAlive v = false /\ dampeningAlive v = D.
Proof.
  unfold verdict. destruct o as [r|].
  - destruct (wasAlive v); simpl; [done|].
    destruct (dampeningAlive v <? D); simpl; [done|].
    destruct (dampeningAlive v =? D) eqn:E; [|done].
    apply Z.eqb_eq in E. eauto.
  - by destruct (_ && _).
Qed.

(** The death branch. *)
Lemma loop_body_dead (py : Z) args net31 v sw :
  wasAlive v = true -> dampening args <= dampeningDead v + 1 ->
  loop_body py args net31 v Unreachable sw =
  match set_filter args net31 sw with
  | (t, sw', Ok _) =>
      (t ++ [Log Debug ""], sw',
       Ok {| dampeningDead := dampeningDead v + 1; dampeningAlive := 0;
             wasAlive := false |})
  | (t, sw', Err f) => (t, sw', Err f)
  end.
Proof.
  intros Hw HD. unfold loop_body. apply Z.leb_le in HD. rewrite Hw, HD. simpl.
  rewrite !bind_run.
  destruct (set_filter args net31 sw) as [[t sw'] [[]|f]]; simpl; [|done].
  by rewrite app_nil_r.
Qed.

(** The resurrection branch. *)
Lemma loop_body_alive (py : Z) args net31 v response sw :
  wasAlive v = false -> dampeningAlive v = dampening args ->
  loop_body py args net31 v (Reachable response) sw =
  match remove_if_in_place py args net31 sw with
  | (t, sw', Ok _) =>
      (Log Info (logStr_format "Target alive. Response:" response)
         :: Log Error "Target resurrected!"
         :: Syslog (available_notice args)
         :: t ++ [Log Debug ""], sw',
       Ok {| dampeningDead := 0; dampeningAlive := 0; wasAlive := true |})
  | (t, sw', Err f) =>
      (Log Info (logStr_format "Target alive. Response:" response)
         :: Log Error "Target resurrected!"
         :: Syslog (available_notice args)
         :: t, sw', Err f)
  end.
Proof.
  intros Hw HD. unfold loop_body. rewrite Hw, HD, Z.ltb_irrefl, Z.eqb_refl. simpl.
  do 4 bind_step. rewrite bind_run.
  destruct (remove_if_in_place py args net31 sw) as [[t sw'] [[]|f]]; simpl; [|done].
  by rewrite ?app_nil_r.
Qed.

Lemma existsb_check_log p net31 name m :
  (forall lvl text, p (Log lvl text) = false) ->
  existsb p (check_log net31 name m) = false.
Proof.
  intros Hp. unfold check_log, found_log.
  destruct (m !! name) as [es|]; simpl; [|by rewrite Hp].
  destruct (last_match net31 es); simpl; by rewrite ?Hp.
Qed.

Lemma remove_if_in_place_trace (py : Z) args net31 sw :
  exists t sw' r,
    remove_if_in_place py args net31 sw = (t, sw', r) /\
    existsb is_dead_notice t = false /\
    existsb is_available_notice t = false /\
    api sw' = api sw /\
    (api sw = Serving -> py < 3 -> r = Ok tt).
Proof.
  destruct (api sw) eqn:Hs.
  - destruct (Z.lt_ge_cases py 3) as [Hpy|Hpy].
    + rewrite remove_if_in_place_serving by done.
      destruct (last_match _ _) as [e|]; do 3 eexists; (split; [reflexivity|]);
        simpl; rewrite ?existsb_app, !existsb_check_log by done; by rewrite ?Hs.
    + rewrite remove_if_in_place_py3 by done.
      do 3 eexists. split; [reflexivity|]. repeat split; [done|lia].
  - rewrite remove_if_in_place_failing by congruence. rewrite Hs.
    by do 3 eexists.
  - rewrite remove_if_in_place_failing by congruence. rewrite Hs.
    by do 3 eexists.
Qed.

Lemma set_filter_trace args net31 sw :
  exists t sw' r,
    set_filter args net31 sw = (t, sw', r) /\
    existsb is_dead_notice t = true /\
    api sw' = api sw /\
    (api sw = Serving -> r = Ok tt).
Proof.
  destruct (api sw) eqn:Hs.
  - rewrite set_filter_serving by done. by do 3 eexists.
  - rewrite set_filter_failing by congruence. rewrite Hs. by do 3 eexists.
  - rewrite set_filter_failing by congruence. rewrite Hs. by do 3 eexists.
Qed.

(** Every pass, whatever the switch does and whatever the interpreter: the
    notices of the pass are those of [verdict], the state of the API is
    left as it was, a pass that returns leaves the variables [next_vars],
    and it does return when the API is serving, unless it is a
    resurrection under Python 3. *)
Lemma loop_body_spec (py : Z) args net31 v o sw :
  exists t sw' r,
    loop_body py args net31 v o sw = (t, sw', r) /\
    transition_of t = verdict (dampening args) v o /\
    api sw' = api sw /\
    (forall v', r = Ok v' -> v' = next_vars (dampening args) v o) /\
    (api sw = Serving ->
     py < 3 \/ verdict (dampening args) v o <> Some BecameAlive ->
     r = Ok (next_vars (dampening args) v o)).
Proof.
  destruct (verdict (dampening args) v o) as [[]|] eqn:Hv.
  - pose proof Hv as (-> & Hw & HD)%verdict_dead_inv.
    rewrite loop_body_dead by done.
    destruct (set_filter_trace args net31 sw) as (t & sw' & r & -> & Ht & Ha & Hr).
    assert (Hn : next_vars (dampening args) v Unreachable =
                 {| dampeningDead := dampeningDead v + 1; dampeningAlive := 0;
                    wasAlive := false |}).
    { unfold next_vars. apply Z.leb_le in HD. by rewrite Hw, HD. }
    destruct r as [[]|f]; do 3 eexists; (split; [reflexivity|]).
    + split; [unfold transition_of; by rewrite existsb_app, Ht|].
      split; [done|].
      split; [intros v' [= <-]; by rewrite Hn|intros _ _; by rewrite Hn].
    + split; [unfold transition_of; by rewrite Ht|].
      split; [done|].
      split; [done|intros Hs _; by specialize (Hr Hs)].
  - pose proof Hv as ([response ->] & Hw & HD)%verdict_alive_inv.
    rewrite loop_body_alive by done.
    destruct (remove_if_in_place_trace py args net31 sw)
      as (t & sw' & r & -> & Ht1 & Ht2 & Ha & Hr).
    assert (Hn : next_vars (dampening args) v (Reachable response) =
                 {| dampeningDead := 0; dampeningAlive := 0; wasAlive := true |}).
    { unfold next_vars. by rewrite Hw, HD, Z.ltb_irrefl, Z.eqb_refl. }
    destruct r as [[]|f]; do 3 eexists; (split; [reflexivity|]).
    + split; [unfold transition_of; simpl; by rewrite existsb_app, Ht1|].
      split; [done|].
      split; [intros v' [= <-]; by rewrite Hn|intros _ _; by rewrite Hn].
    + split; [unfold transition_of; simpl; by rewrite Ht1|].
      split; [done|].
      split; [done|].
      intros Hs [Hpy|Hne]; [by specialize (Hr Hs Hpy)|done].
  - destruct (loop_body_quiet py args net31 v o sw Hv) as (t & -> & _ & _ & Ht).
    do 3 eexists. split; [reflexivity|].
    split; [done|]. split; [done|]. split; [by intros v' [= <-]|done].
Qed.

(** ** Runs of the loop *)

Section Run.
Variable py : Z.
Variable args : Args.
Variable net31 : string.

Let D := dampening args.

(** A loop that returns leaves the variables [run_vars] and the state of
    the API as it was. *)
Lemma main_loop_result os : forall v sw t sw' v',
  main_loop py args net31 os v sw = (t, sw', Ok v') ->
  v' = run_vars D os v /\ api sw' = api sw.
Proof.
  induction os as [|o os IH]; intros v sw t sw' v'; simpl.
  - by intros [= _ <- <-].
  - rewrite bind_run.
    destruct (loop_body_spec py args net31 v o sw)
      as (t1 & sw1 & r & Hb & _ & Ha & Hn & _).
    rewrite Hb. destruct r as [v1|f]; [|done].
    destruct (main_loop py args net31 os v1 sw1) as [[t2 sw2] r2] eqn:El.
    intros [= _ <- ->]. apply IH in El as [-> Ha2].
    rewrite (Hn v1 eq_refl). fold D. split; [done|congruence].
Qed.

(** With a switch that fails, or under Python 3, the run stops at the
    first pass that fails; up to there the transitions are the same. *)
Lemma transitions_prefix os : forall v sw,
  exists rest, verdicts D os v = transitions py args net31 os v sw ++ rest.
Proof.
  induction os as [|o os IH]; intros v sw; simpl; [by exists []|].
  destruct (loop_body_spec py args net31 v o sw)
    as (t & sw1 & r & Hb & Ht & _ & Hv & _).
  rewrite Hb, Ht. fold D. destruct r as [v'|f].
  - rewrite (Hv v' eq_refl). destruct (IH (next_vars D v o) sw1) as [rest ->].
    by exists rest.
  - by eexists.
Qed.

(** The loop returns when the API is serving, under Python 2 and under any
    interpreter as long as it announces no resurrection. *)
Lemma main_loop_returns os : forall v sw,
  api sw = Serving ->
  py < 3 \/ Some BecameAlive ∉ transitions py args net31 os v sw ->
  exists t sw',
    main_loop py args net31 os v sw = (t, sw', Ok (run_vars D os v)) /\
    api sw' = Serving /\
    transitions py args net31 os v sw = verdicts D os v.
Proof.
  induction os as [|o os IH]; intros v sw Hs Hpy; simpl.
  - by exists [], sw.
  - simpl in Hpy.
    destruct (loop_body_spec py args net31 v o sw)
      as (t & sw1 & r & Hb & Ht & Ha & _ & Hr).
    rewrite Hb in Hpy |- *.
    assert (Hok : r = Ok (next_vars D v o)).
    { apply Hr; [done|]. destruct Hpy as [Hpy|Hpy]; [by left|right].
      rewrite <- Ht. intros E. apply Hpy. rewrite E.
      destruct r; apply list_elem_of_here. }
    subst r. rewrite Hs in Ha.
    destruct (IH (next_vars D v o) sw1 Ha) as (t2 & sw2 & Hl & Ha2 & Htr).
    { destruct Hpy as [Hpy|Hpy]; [by left|right].
      intros E. apply Hpy. by apply list_elem_of_further. }
    exists (t ++ t2), sw2. split; [|split; [done|]].
    + rewrite bind_run, Hb. fold D. by rewrite Hl.
    + by rewrite Ht, Htr.
Qed.

Lemma main_loop_serving os v sw :
  api sw = Serving ->
  py < 3 \/ Some BecameAlive ∉ verdicts D os v ->
  exists t sw',
    main_loop py args net31 os v sw = (t, sw', Ok (run_vars D os v)) /\
    api sw' = Serving.
Proof.
  intros Hs Hpy.
  destruct (main_loop_returns os v sw Hs) as (t & sw' & Hl & Ha & _).
  - destruct Hpy as [Hpy|Hpy]; [by left|right].
    destruct (transitions_prefix os v sw) as [rest E].
    rewrite E in Hpy. intros Hin. apply Hpy, elem_of_app. by left.
  - by exists t, sw'.
Qed.


(** The resurrection itself is announced under any interpreter: the notice
    goes out before the prefix-list is looked at. *)
Lemma transitions_until_alive os : forall l v sw,
  api sw = Serving ->
  verdicts D os v = l ++ [Some BecameAlive] ->
  Some BecameAlive ∉ l ->
  transitions py args net31 os v sw = l ++ [Some BecameAlive].
Proof.
  induction os as [|o os IH]; intros l v sw Hs Hv Hl; simpl in *.
  - by destruct l.
  - destruct (loop_body_spec py args net31 v o sw)
      as (t & sw1 & r & Hb & Ht & Ha & Hn & Hr).
    rewrite Hb, Ht. fold D. destruct l as [|x l]; simplify_eq/=.
    + destruct os; [|done]. rewrite H. by destruct r.
    + rewrite Hr; [|done|].
      * f_equal. apply IH; [congruence|done|].
        intros E. apply Hl. by apply list_elem_of_further.
      * right. intros E. apply Hl. fold D in E. rewrite E. apply list_elem_of_here.
Qed.
End Run.

(** ** The two counters *)

Lemma run_vars_snoc D os o v :
  run_vars D (os ++ [o]) v = next_vars D (run_vars D os v) o.
Proof. unfold run_vars. by rewrite fold_left_app. Qed.

Lemma verdicts_app D os1 os2 v :
  verdicts D (os1 ++ os2) v = verdicts D os1 v ++ verdicts D os2 (run_vars D os1 v).
Proof.
  revert v. induction os1 as [|o os1 IH]; intros v; simpl; [done|].
  by rewrite IH.
Qed.

Lemma trailing_snoc p os o :
  trailing p (os ++ [o]) = if p o then trailing p os + 1 else 0.
Proof. unfold trailing. by rewrite rev_app_distr. Qed.

Lemma dampeningDead_next D v o :
  dampeningDead (next_vars D v o) =
  if is_unreachable o then dampeningDead v + 1 else 0.
Proof.
  destruct o; simpl; [|done].
  destruct (wasAlive v); [done|].
  destruct (dampeningAlive v <? D); [done|]. by destruct (dampeningAlive v =? D).
Qed.

(** [dampeningDead] counts the failures since the last success. *)
Lemma dampeningDead_run D os v :
  dampeningDead v = 0 ->
  dampeningDead (run_vars D os v) = trailing is_unreachable os.
Proof.
  intros H0. induction os as [|o os IH] using rev_ind; [done|].
  rewrite run_vars_snoc, dampeningDead_next, trailing_snoc, IH. done.
Qed.

(** While the target is believed alive the failure count is below [D]. *)
Lemma alive_below D os v :
  1 <= D -> dampeningDead v = 0 ->
  wasAlive (run_vars D os v) = true -> dampeningDead (run_vars D os v) < D.
Proof.
  intros HD H0. induction os as [|o os IH] using rev_ind; simpl.
  - intros _. unfold run_vars. simpl. lia.
  - rewrite run_vars_snoc. set (u := run_vars D os v) in *.
    destruct o as [r|]; simpl.
    + intros _. destruct (wasAlive u); simpl; [lia|].
      destruct (dampeningAlive u <? D); simpl; [lia|].
      destruct (dampeningAlive u =? D); simpl; lia.
    + intros [Hw Hlt]%andb_prop. apply negb_true_iff, Z.leb_gt in Hlt. lia.
Qed.

(** The verdict of a pass after a history: death is announced exactly on
    the [D]-th failure in a row while the target is believed alive. *)
Lemma verdict_dead_iff D pre o v0 :
  1 <= D -> dampeningDead v0 = 0 ->
  let v := run_vars D pre v0 in
  verdict D v o = Some BecameDead <->
  wasAlive v = true /\ o = Unreachable /\ trailing is_unreachable (pre ++ [o]) = D.
Proof.
  intros HD H0 v. split.
  - intros (-> & Hw & Hle)%verdict_dead_inv.
    pose proof (alive_below D pre v0 HD H0 Hw) as Hlt. fold v in Hlt.
    split; [done|]. split; [done|].
    rewrite trailing_snoc. simpl.
    rewrite <- (dampeningDead_run D pre v0 H0). fold v. lia.
  - intros (Hw & -> & Htr). unfold verdict. rewrite Hw. simpl.
    rewrite trailing_snoc in Htr. simpl in Htr.
    rewrite <- (dampeningDead_run D pre v0 H0) in Htr. fold v in Htr.
    assert (E : (D <=? dampeningDead v + 1) = true) by (apply Z.leb_le; lia).
    by rewrite E.
Qed.

(** ** Death *)


Ltac absent := apply (bool_decide_unpack _); by vm_compute.



(** ** Resurrection *)

Lemma recovering D r n : forall v,
  wasAlive v = false -> dampeningAlive v + Z.of_nat n <= D ->
  verdicts D (replicate n (Reachable r)) v = replicate n None /\
  wasAlive (run_vars D (replicate n (Reachable r)) v) = false /\
  dampeningAlive (run_vars D (replicate n (Reachable r)) v) =
    dampeningAlive v + Z.of_nat n.
Proof.
  induction n as [|n IH]; intros v Hw Hle.
  - simpl. split; [done|]. split; [done|]. unfold run_vars. simpl. lia.
  - assert (E : (dampeningAlive v <? D) = true) by (apply Z.ltb_lt; lia).
    assert (Hn : next_vars D v (Reachable r) =
                 {| dampeningDead := 0; dampeningAlive := dampeningAlive v + 1;
                    wasAlive := false |})
      by (unfold next_vars; by rewrite Hw, E).
    destruct (IH (next_vars D v (Reachable r))) as (Hv & Hw' & Ha).
    { by rewrite Hn. } { rewrite Hn. simpl. lia. }
    change (run_vars D (replicate (S n) (Reachable r)) v)
      with (run_vars D (replicate n (Reachable r)) (next_vars D v (Reachable r))).
    cbn [replicate verdicts]. rewrite Hv, Hw', Ha, Hn.
    unfold verdict. rewrite Hw, E. simpl.
    split; [done|]. split; [done|]. lia.
Qed.

(** From the dead state with [dampeningAlive = 0], [D] successes in a row
    announce nothing and the next one announces the resurrection: the
    branch that counts and the branch that resurrects exclude each other,
    so the pass that brings the count to [D] does not resurrect. *)
Lemma resurrection_takes_one_more D r v :
  0 <= D -> wasAlive v = false -> dampeningAlive v = 0 ->
  verdicts D (replicate (Z.to_nat D) (Reachable r) ++ [Reachable r]) v =
  replicate (Z.to_nat D) None ++ [Some BecameAlive].
Proof.
  intros HD Hw Ha.
  destruct (recovering D r (Z.to_nat D) v Hw) as (Hv & Hw' & Ha'); [lia|].
  rewrite verdicts_app, Hv. f_equal. simpl. unfold verdict.
  rewrite Hw', Ha'. replace (dampeningAlive v + Z.of_nat (Z.to_nat D)) with D by lia.
  by rewrite Z.ltb_irrefl, Z.eqb_refl.
Qed.

(** C1.  The code at the scenario of the claim, under either interpreter:
    with [D = 2] and the target believed dead, the results success,
    failure, success, success announce no resurrection; [wasAlive] is
    still false and the filter entry is still in the list after the fourth
    pass.  A fifth result, a third success in a row, is what announces
    it. *)
Theorem C1_resurrection_scenario (py : Z) :
  transitions py (Ex.args 2) Ex.net31 [Ex.R; Ex.U; Ex.R; Ex.R] Ex.dead_vars
    (Ex.filtered Serving) = [None; None; None; None] /\
  (exists t,
     main_loop py (Ex.args 2) Ex.net31 [Ex.R; Ex.U; Ex.R; Ex.R] Ex.dead_vars
       (Ex.filtered Serving) =
     (t, Ex.filtered Serving,
      Ok {| dampeningDead := 0; dampeningAlive := 2; wasAlive := false |}) /\
     api_calls t = [] /\ notices t = []) /\
  transitions py (Ex.args 2) Ex.net31 [Ex.R; Ex.U; Ex.R; Ex.R; Ex.R] Ex.dead_vars
    (Ex.filtered Serving) = [None; None; None; None; Some BecameAlive].
Proof.
  split; [vm_compute; reflexivity|].
  split.
  - eexists. split; [vm_compute; reflexivity|].
    split; vm_compute; reflexivity.
  - apply (transitions_until_alive py (Ex.args 2) Ex.net31 _
             [None; None; None; None]); [done|done|absent].
Qed.

(** ** What [check_filter] finds *)

Lemma last_match_Some net31 es e :
  last_match net31 es = Some e -> e ∈ es /\ prefix e = net31.
Proof.
  unfold last_match. intros [Hin Hp]%find_some.
  split; [by apply list_elem_of_In, in_rev|by apply String.eqb_eq].
Qed.

Lemma last_match_None net31 es :
  last_match net31 es = None -> forall e, e ∈ es -> prefix e <> net31.
Proof.
  unfold last_match. intros Hnone e Hin.
  apply String.eqb_neq, (find_none _ _ Hnone).
  apply (proj1 (in_rev _ _)). by apply list_elem_of_In.
Qed.

Lemma last_match_found net31 es e :
  e ∈ es -> prefix e = net31 ->
  exists e', last_match net31 es = Some e'.
Proof.
  intros Hin Hp. destruct (last_match net31 es) as [e'|] eqn:E; [by exists e'|].
  by destruct (last_match_None _ _ E e Hin).
Qed.

Lemma omap_check_log {B} (f : Action -> option B) net31 name m :
  (forall l x, f (Log l x) = None) ->
  omap f (check_log net31 name m) = [].
Proof.
  intros Hf. unfold check_log, found_log.
  destruct (m !! name) as [es|]; [destruct (last_match net31 es)|];
    simpl; rewrite ?Hf; simpl; rewrite ?Hf; done.
Qed.

(** ** The start of [main] *)

Lemma main_start_serving (py : Z) args net31 sw :
  py < 3 -> network_s31 (host0 args) = Ok net31 -> api sw = Serving ->
  main_start py args sw =
  (Log Debug (logStr_format "network /31 for host:" net31)
     :: RunCmds [ShowIpPrefixList prefix_list_name]
     :: Close
     :: check_log net31 prefix_list_name (prefix_lists sw)
     ++ match last_match net31 (Store.entries prefix_list_name (prefix_lists sw)) with
        | Some _ => [Log Info (logStr_format "Target already filtered " prefix_list_name)]
        | None => []
        end,
   sw,
   Ok (net31,
       {| dampeningDead := 0; dampeningAlive := 0;
          wasAlive :=
            match last_match net31 (Store.entries prefix_list_name (prefix_lists sw)) with
            | Some _ => false
            | None => true
            end |})).
Proof.
  intros Hpy Hn Hs. unfold main_start.
  rewrite bind_run. unfold lift at 1. rewrite Hn. cbv beta iota.
  bind_step. rewrite bind_run, check_filter_serving by done.
  unfold check_result.
  destruct (last_match _ _) as [e|]; simpl; [done|].
  by rewrite app_nil_r.
Qed.

(** Under Python 3 the first look at the prefix-list ends [main]. *)
Lemma main_start_py3 (py : Z) args net31 sw :
  3 <= py -> network_s31 (host0 args) = Ok net31 -> api sw = Serving ->
  main_start py args sw =
  ([Log Debug (logStr_format "network /31 for host:" net31);
    RunCmds [ShowIpPrefixList prefix_list_name]; Close],
   sw, Err (Uncaught "AttributeError")).
Proof.
  intros Hpy Hn Hs. unfold main_start.
  rewrite bind_run. unfold lift at 1. rewrite Hn. cbv beta iota.
  bind_step. by rewrite bind_run, check_filter_py3.
Qed.

(** ** Silence while dead *)

Lemma loop_body_dead_silent (py : Z) args net31 v sw :
  wasAlive v = false ->
  loop_body py args net31 v Unreachable sw =
  ([Log Debug ""], sw,
   Ok {| dampeningDead := dampeningDead v + 1; dampeningAlive := 0;
         wasAlive := false |}).
Proof. intros Hw. unfold loop_body. by rewrite Hw. Qed.

Lemma main_loop_dead_silent (py : Z) args net31 n : forall v sw,
  wasAlive v = false ->
  exists t v',
    main_loop py args net31 (replicate n Unreachable) v sw = (t, sw, Ok v') /\
    wasAlive v' = false /\
    dampeningDead v' = dampeningDead v + Z.of_nat n /\
    api_calls t = [] /\ notices t = [].
Proof.
  induction n as [|n IH]; intros v sw Hw.
  - exists [], v. simpl. repeat split; try done. lia.
  - destruct (IH {| dampeningDead := dampeningDead v + 1; dampeningAlive := 0;
                    wasAlive := false |} sw eq_refl)
      as (t & v' & Hl & Hw' & Hd & Hc & Hn).
    exists (Log Debug "" :: t), v'.
    cbn [replicate main_loop]. rewrite bind_run, loop_body_dead_silent, Hl by done.
    simpl in Hd. repeat split; try done. lia.
Qed.

Lemma next_vars_stays_dead D v o :
  wasAlive v = false -> verdict D v o <> Some BecameAlive ->
  wasAlive (next_vars D v o) = false.
Proof.
  intros Hw. unfold verdict, next_vars. rewrite Hw. destruct o as [r|]; simpl; [|done].
  destruct (dampeningAlive v <? D); simpl; [done|].
  by destruct (dampeningAlive v =? D).
Qed.

Lemma verdict_dead_next D v o :
  verdict D v o = Some BecameDead -> wasAlive (next_vars D v o) = false.
Proof.
  intros (-> & Hw & Hle)%verdict_dead_inv. simpl. rewrite Hw. simpl.
  by apply negb_false_iff, Z.leb_le.
Qed.

Lemma verdicts_split D l1 : forall os v l2,
  verdicts D os v = l1 ++ l2 ->
  exists os1 os2,
    os = os1 ++ os2 /\ verdicts D os1 v = l1 /\
    verdicts D os2 (run_vars D os1 v) = l2.
Proof.
  induction l1 as [|x l1 IH]; intros os v l2 H.
  - by exists [], os.
  - destruct os as [|o os]; [done|]. simpl in H. injection H as Hx H.
    destruct (IH _ _ _ H) as (os1 & os2 & -> & H1 & H2).
    exists (o :: os1), os2. simpl. by rewrite H1, Hx.
Qed.

(** While the target is believed dead, no death is announced before a
    resurrection is. *)
Lemma dead_until_alive D l2 : forall os v x l3,
  wasAlive v = false ->
  verdicts D os v = l2 ++ x :: l3 ->
  Some BecameAlive ∉ l2 -> x <> Some BecameDead.
Proof.
  induction l2 as [|y l2 IH]; intros os v x l3 Hw H Hnot.
  - destruct os as [|o os]; [done|]. simpl in H. injection H as <- _.
    intros (_ & Hw' & _)%verdict_dead_inv. congruence.
  - destruct os as [|o os]; [done|]. simpl in H. injection H as Hy H.
    apply (IH _ _ _ _ (next_vars_stays_dead D v o Hw ltac:(set_solver)) H).
    set_solver.
Qed.

Lemma one_death_per_episode D os v l1 l2 l3 :
  verdicts D os v = l1 ++ Some BecameDead :: l2 ++ Some BecameDead :: l3 ->
  Some BecameAlive ∈ l2.
Proof.
  intros H.
  apply verdicts_split in H as (os1 & os2 & -> & _ & H).
  destruct os2 as [|o os2]; [done|]. simpl in H. injection H as Hv H.
  destruct (decide (Some BecameAlive ∈ l2)) as [|Hnot]; [done|].
  by destruct (dead_until_alive D l2 _ _ _ _ (verdict_dead_next D _ o Hv) H Hnot).
Qed.

(** C10.  While the target is believed dead, a failed probe only counts:
    the pass sends no command to the switch and no notice, whatever the
    state of the switch and the interpreter, and [dampeningDead] goes on
    growing by one per failure without bound.  In any run two
    announcements of death have an announcement of resurrection between
    them.  A start that finds the entry of the target in the list adds
    nothing however many failures follow: the only command of the whole
    run is the first look at the list, no notice is sent and the switch is
    left as it was.  Under Python 2 that start marks the target dead and
    the run counts the failures; under Python 3 the run ends at the first
    look, with [AttributeError]. *)
Theorem C10_dead_is_silent (py : Z) (args : Args) (net31 : string) :
  (forall v sw, wasAlive v = false ->
     loop_body py args net31 v Unreachable sw =
     ([Log Debug ""], sw,
      Ok {| dampeningDead := dampeningDead v + 1; dampeningAlive := 0;
            wasAlive := false |})) /\
  (forall n v sw, wasAlive v = false ->
     exists t v',
       main_loop py args net31 (replicate n Unreachable) v sw = (t, sw, Ok v') /\
       wasAlive v' = false /\
       dampeningDead v' = dampeningDead v + Z.of_nat n /\
       api_calls t = [] /\ notices t = []) /\
  (forall os v sw l1 l2 l3,
     transitions py args net31 os v sw =
       l1 ++ Some BecameDead :: l2 ++ Some BecameDead :: l3 ->
     Some BecameAlive ∈ l2) /\
  (forall n sw e,
     network_s31 (host0 args) = Ok net31 -> api sw = Serving ->
     e ∈ Store.entries prefix_list_name (prefix_lists sw) -> prefix e = net31 ->
     exists t r,
       main py args (replicate n Unreachable) sw = (t, sw, r) /\
       api_calls t = [[ShowIpPrefixList prefix_list_name]] /\
       notices t = [] /\
       (py < 3 ->
          exists v', r = Ok v' /\ wasAlive v' = false /\
                     dampeningDead v' = Z.of_nat n) /\
       (3 <= py -> r = Err (Uncaught "AttributeError"))).
Proof.
  split; [intros; by apply loop_body_dead_silent|].
  split; [intros; by apply main_loop_dead_silent|].
  split.
  - intros os v sw l1 l2 l3 H.
    destruct (transitions_prefix py args net31 os v sw) as [rest Hp].
    rewrite H in Hp. rewrite <- !app_assoc in Hp. simpl in Hp.
    rewrite <- !app_assoc in Hp. simpl in Hp.
    by apply one_death_per_episode in Hp.
  - intros n sw e Hnet Hs Hin Hp.
    destruct (Z.lt_ge_cases py 3) as [Hpy|Hpy].
    + destruct (last_match_found _ _ _ Hin Hp) as [e' He'].
      destruct (main_loop_dead_silent py args net31 n
                  {| dampeningDead := 0; dampeningAlive := 0; wasAlive := false |}
                  sw eq_refl) as (t & v' & Hl & Hw & Hd & Hc & Hn).
      eexists _, (Ok v'). unfold main.
      rewrite bind_run, (main_start_serving py _ net31), He' by done.
      cbv beta iota. simpl fst. simpl snd. rewrite Hl.
      split; [reflexivity|].
      unfold api_calls, notices in *. simpl. rewrite !omap_app, Hc, Hn.
      rewrite !omap_check_log by done.
      split; [done|]. split; [done|]. split; [|lia].
      intros _. by exists v'.
    + eexists _, _. unfold main.
      rewrite bind_run, (main_start_py3 py _ net31) by done.
      split; [reflexivity|]. split; [done|]. split; [done|]. split; [lia|done].
Qed.

Lemma C10_dead_is_silent_witness :
  wasAlive Ex.dead_vars = false /\
  loop_body 3 (Ex.args 3) Ex.net31 Ex.dead_vars Unreachable (Ex.filtered Faulting) =
  ([Log Debug ""], Ex.filtered Faulting,
   Ok {| dampeningDead := 1; dampeningAlive := 0; wasAlive := false |}) /\
  exists t v',
    main 2 (Ex.args 3) (replicate 4 Unreachable) (Ex.filtered Serving) =
      (t, Ex.filtered Serving, Ok v') /\
    api_calls t = [[ShowIpPrefixList prefix_list_name]] /\ notices t = [] /\
    wasAlive v' = false /\ dampeningDead v' = 4.
Proof.
  split; [reflexivity|]. split.
  - exact (proj1 (C10_dead_is_silent 3 (Ex.args 3) Ex.net31)
             Ex.dead_vars (Ex.filtered Faulting) eq_refl).
  - destruct (proj2 (proj2 (proj2 (C10_dead_is_silent 2 (Ex.args 3) Ex.net31)))
                4%nat (Ex.filtered Serving) {| prefix := Ex.net31; seqno := 20 |}
                eq_refl eq_refl)
      as (t & r & Hm & Hc & Hn & H2 & _).
    + vm_compute. right. left.
    + reflexivity.
    + destruct (H2 eq_refl) as (v' & -> & Hw & Hd).
      exists t, v'. split; [exact Hm|]. split; [exact Hc|].
      split; [exact Hn|]. split; [exact Hw|exact Hd].
Defined.

(** ** The store after the two operations *)

(** ** Adding the filter *)

(** C3, as stated, fails: the death branch sends the permit command
    without looking at the list.  On a switch with no list, twice in a row
    leaves two entries for the /31; on a switch that already holds the
    entry, once is not a no-op. *)
Lemma C3_counterexample :
  (exists t sw',
     (set_filter (Ex.args 3) Ex.net31 ≫= fun _ => set_filter (Ex.args 3) Ex.net31)
       Ex.bare = (t, sw', Ok tt) /\
     api_calls t =
       [[Enable; Configure; IpPrefixListPermit prefix_list_name Ex.net31; End_];
        [Enable; Configure; IpPrefixListPermit prefix_list_name Ex.net31; End_]] /\
     Store.matching prefix_list_name Ex.net31 (prefix_lists sw') = 2%nat) /\
  (exists t sw',
     set_filter (Ex.args 3) Ex.net31 (Ex.filtered Serving) = (t, sw', Ok tt) /\
     Store.matching prefix_list_name Ex.net31 (prefix_lists (Ex.filtered Serving)) = 1%nat /\
     Store.matching prefix_list_name Ex.net31 (prefix_lists sw') = 2%nat).
Proof.
  split; do 2 eexists; (split; [vm_compute; reflexivity|]);
    split; vm_compute; reflexivity.
Qed.

(** C3, amended.  On a serving switch the death branch logs, sends the
    notice, and sends the permit command for the /31 in one call, without
    listing the entries first; the list gains one entry with that prefix
    each time, so twice in a row adds two. *)
Theorem C3_set_filter_appends (args : Args) (net31 : string) (sw : Switch) :
  api sw = Serving ->
  exists sw1 sw2,
    set_filter args net31 sw =
      ([Log Error (logStr_format "Warning:" "Target is dead");
        Syslog (dead_notice args);
        RunCmds [Enable; Configure; IpPrefixListPermit prefix_list_name net31; End_];
        Close], sw1, Ok tt) /\
    api sw1 = Serving /\
    Store.entries prefix_list_name (prefix_lists sw1) =
      Store.entries prefix_list_name (prefix_lists sw) ++
      [{| prefix := net31;
          seqno := Store.next_seqno (Store.entries prefix_list_name (prefix_lists sw)) |}] /\
    Store.matching prefix_list_name net31 (prefix_lists sw1) =
      S (Store.matching prefix_list_name net31 (prefix_lists sw)) /\
    (exists t, set_filter args net31 sw1 = (t, sw2, Ok tt)) /\
    Store.matching prefix_list_name net31 (prefix_lists sw2) =
      S (S (Store.matching prefix_list_name net31 (prefix_lists sw))).
Proof.
  intros Hs. do 2 eexists.
  split; [by apply set_filter_serving|].
  split; [done|]. split; [apply entries_insertEntry|].
  split; [apply matching_insertEntry|].
  split; [eexists; by apply set_filter_serving|].
  simpl. by rewrite !matching_insertEntry.
Qed.

Lemma C3_set_filter_appends_witness :
  api Ex.bare = Serving /\
  exists sw1 sw2,
    set_filter (Ex.args 3) Ex.net31 Ex.bare =
      ([Log Error (logStr_format "Warning:" "Target is dead");
        Syslog (dead_notice (Ex.args 3));
        RunCmds [Enable; Configure; IpPrefixListPermit prefix_list_name Ex.net31; End_];
        Close], sw1, Ok tt) /\
    api sw1 = Serving /\
    Store.entries prefix_list_name (prefix_lists sw1) =
      Store.entries prefix_list_name (prefix_lists Ex.bare) ++
      [{| prefix := Ex.net31;
          seqno := Store.next_seqno (Store.entries prefix_list_name (prefix_lists Ex.bare)) |}] /\
    Store.matching prefix_list_name Ex.net31 (prefix_lists sw1) =
      S (Store.matching prefix_list_name Ex.net31 (prefix_lists Ex.bare)) /\
    (exists t, set_filter (Ex.args 3) Ex.net31 sw1 = (t, sw2, Ok tt)) /\
    Store.matching prefix_list_name Ex.net31 (prefix_lists sw2) =
      S (S (Store.matching prefix_list_name Ex.net31 (prefix_lists Ex.bare))).
Proof.
  split; [reflexivity|].
  exact (C3_set_filter_appends (Ex.args 3) Ex.net31 Ex.bare eq_refl).
Defined.

(** ** The first look at the list *)

(** C4, as stated, fails: under Python 2, when the list already holds the
    /31 of the target, the start of [main] leaves [wasAlive] false. *)
Lemma C4_counterexample :
  exists t,
    main_start 2 (Ex.args 3) (Ex.filtered Serving) =
    (t, Ex.filtered Serving,
     Ok (Ex.net31, {| dampeningDead := 0; dampeningAlive := 0; wasAlive := false |})).
Proof. eexists. vm_compute. reflexivity. Qed.

(** C4, amended.  The first look at the list only reads, under either
    interpreter: its one call is the show command, it sends no notice and
    the switch is as before.  Under Python 2 it does set the belief:
    [wasAlive] is false afterwards exactly when the list holds an entry
    with the /31 of the target, and true otherwise; both counters are
    zero.  (Under Python 3 it ends [main] with [AttributeError].) *)
Theorem C4_start_reads_and_marks (py : Z) (args : Args) (net31 : string) (sw : Switch) :
  network_s31 (host0 args) = Ok net31 -> api sw = Serving ->
  exists t r,
    main_start py args sw = (t, sw, r) /\
    api_calls t = [[ShowIpPrefixList prefix_list_name]] /\
    notices t = [] /\
    (py < 3 ->
       exists v,
         r = Ok (net31, v) /\
         dampeningDead v = 0 /\ dampeningAlive v = 0 /\
         (wasAlive v = false <->
            exists e, e ∈ Store.entries prefix_list_name (prefix_lists sw) /\
                      prefix e = net31)) /\
    (3 <= py -> r = Err (Uncaught "AttributeError")).
Proof.
  intros Hn Hs. destruct (Z.lt_ge_cases py 3) as [Hpy|Hpy].
  - do 2 eexists.
    split; [by apply main_start_serving|].
    split.
    { unfold api_calls. simpl. rewrite omap_app, omap_check_log by done.
      by destruct (last_match _ _). }
    split.
    { unfold notices. simpl. rewrite omap_app, omap_check_log by done.
      by destruct (last_match _ _). }
    split; [|lia]. intros _. eexists. split; [reflexivity|].
    split; [done|]. split; [done|]. simpl.
    destruct (last_match _ _) as [e|] eqn:E.
    + split; [|done]. intros _. exists e. by apply last_match_Some.
    + split; [done|]. intros (e & Hin & Hp).
      by destruct (last_match_None _ _ E e Hin).
  - do 2 eexists.
    split; [by apply main_start_py3|].
    split; [done|]. split; [done|]. split; [lia|done].
Qed.

Lemma C4_start_reads_and_marks_witness :
  network_s31 (host0 (Ex.args 3)) = Ok Ex.net31 /\
  api (Ex.filtered Serving) = Serving /\
  exists t v,
    main_start 2 (Ex.args 3) (Ex.filtered Serving) =
      (t, Ex.filtered Serving, Ok (Ex.net31, v)) /\
    api_calls t = [[ShowIpPrefixList prefix_list_name]] /\
    notices t = [] /\
    dampeningDead v = 0 /\ dampeningAlive v = 0 /\
    (wasAlive v = false <->
       exists e, e ∈ Store.entries prefix_list_name (prefix_lists (Ex.filtered Serving)) /\
                 prefix e = Ex.net31).
Proof.
  split; [reflexivity|]. split; [reflexivity|].
  destruct (C4_start_reads_and_marks 2 (Ex.args 3) Ex.net31 (Ex.filtered Serving)
              eq_refl eq_refl) as (t & r & Hm & Hc & Hn & H2 & _).
  destruct (H2 eq_refl) as (v & -> & Hd & Ha & Hw).
  exists t, v. repeat (split; [assumption|]). exact Hw.
Defined.

(** ** A switch that fails during the loop *)




(** ** Removing the filter *)



(** ** A list that does not exist *)

(** C9.  When the answer of the switch does not hold the named list:
    under Python 2 [check_filter] logs that and returns [(False, 0)]
    without raising, and the removal step then does what it does on an
    existing list with no entries, one show command, nothing removed,
    normal return.  Under Python 3 [check_filter] raises
    [AttributeError] instead, and the removal step with it.  The death
    branch, which does not look at the list, sends the same permit command
    whether the list is missing or empty, and both end with the same list
    of one entry. *)
Theorem C9_missing_list (py : Z) (args : Args) (net31 name : string) (sw : Switch) :
  api sw = Serving ->
  prefix_lists sw !! name = None ->
  let empty := {| api := Serving;
                  prefix_lists := <[prefix_list_name := []]> (prefix_lists sw) |} in
  (py < 3 ->
     check_filter py net31 name sw =
       ([RunCmds [ShowIpPrefixList name]; Close;
         Log Debug (logStr_format "prefix-list does not exist:" name)],
        sw, Ok (false, 0)) /\
     (name = prefix_list_name ->
      exists t t',
        remove_if_in_place py args net31 sw = (t, sw, Ok tt) /\
        remove_if_in_place py args net31 empty = (t', empty, Ok tt) /\
        api_calls t = [[ShowIpPrefixList prefix_list_name]] /\
        api_calls t' = api_calls t /\
        notices t = [] /\ notices t' = [])) /\
  (3 <= py ->
     check_filter py net31 name sw =
       ([RunCmds [ShowIpPrefixList name]; Close], sw,
        Err (Uncaught "AttributeError")) /\
     (name = prefix_list_name ->
      remove_if_in_place py args net31 sw =
        ([RunCmds [ShowIpPrefixList prefix_list_name]; Close], sw,
         Err (Uncaught "AttributeError")))) /\
  (name = prefix_list_name ->
   exists t sw1,
     set_filter args net31 sw = (t, sw1, Ok tt) /\
     set_filter args net31 empty = (t, sw1, Ok tt) /\
     Store.entries prefix_list_name (prefix_lists sw1) =
       [{| prefix := net31; seqno := 10 |}]).
Proof.
  intros Hs Hnone empty. split; [|split].
  - intros Hpy. split.
    + rewrite check_filter_serving by done.
      unfold check_log, check_result, Store.entries. by rewrite Hnone.
    + intros ->. do 2 eexists.
      rewrite !remove_if_in_place_serving by done.
      unfold Store.entries, check_log, empty. cbn [prefix_lists].
      rewrite Hnone, lookup_insert_eq. simpl.
      repeat split.
  - intros Hpy. split; [by apply check_filter_py3|].
    intros _. by apply remove_if_in_place_py3.
  - intros ->. do 2 eexists.
    rewrite !set_filter_serving by done. unfold empty. cbn [prefix_lists].
    unfold Store.insertEntry, Store.entries. rewrite Hnone, lookup_insert_eq.
    rewrite insert_insert_eq.
    split; [reflexivity|]. split; [reflexivity|].
    cbn [prefix_lists]. by rewrite lookup_insert_eq.
Qed.

Lemma C9_missing_list_witness :
  api Ex.bare = Serving /\
  prefix_lists Ex.bare !! prefix_list_name = None /\
  check_filter 3 Ex.net31 prefix_list_name Ex.bare =
    ([RunCmds [ShowIpPrefixList prefix_list_name]; Close], Ex.bare,
     Err (Uncaught "AttributeError")) /\
  check_filter 2 Ex.net31 prefix_list_name Ex.bare =
    ([RunCmds [ShowIpPrefixList prefix_list_name]; Close;
      Log Debug (logStr_format "prefix-list does not exist:" prefix_list_name)],
     Ex.bare, Ok (false, 0)).
Proof.
  split; [reflexivity|]. split; [reflexivity|].
  split.
  - exact (proj1 (proj1 (proj2 (C9_missing_list 3 (Ex.args 3) Ex.net31 prefix_list_name
                                  Ex.bare eq_refl eq_refl)) (Z.le_refl 3))).
  - exact (proj1 (proj1 (C9_missing_list 2 (Ex.args 3) Ex.net31 prefix_list_name
                           Ex.bare eq_refl eq_refl) eq_refl)).
Defined.

(** * Further properties of the code *)

(** ** [is_valid_ipv4_address] and [network_s31] *)

(** X1.  [is_valid_ipv4_address] answers [True] exactly on the dotted decimal
    text of four octets, each written without leading zeros. *)
Theorem valid_iff_dotted (address : string) :
  is_valid_ipv4_address address = Ok true <->
  exists a b c d,
    is_octet a /\ is_octet b /\ is_octet c /\ is_octet d /\ address = dotted a b c d.
Proof.
  split; [apply valid_is_dotted|].
  intros (a & b & c & d & Ha & Hb & Hc & Hd & ->). by apply dotted_is_valid.
Qed.

Lemma str_octet_inj a b : is_octet a -> is_octet b -> Py.str a = Py.str b -> a = b.
Proof.
  intros Ha Hb H. pose proof (int_str a Ha) as Ea. rewrite H, int_str in Ea by done.
  congruence.
Qed.

Lemma dotted_inj a b c d a' b' c' d' :
  is_octet a -> is_octet b -> is_octet c -> is_octet d ->
  is_octet a' -> is_octet b' -> is_octet c' -> is_octet d' ->
  dotted a b c d = dotted a' b' c' d' ->
  a = a' /\ b = b' /\ c = c' /\ d = d'.
Proof.
  intros Ha Hb Hc Hd Ha' Hb' Hc' Hd' H.
  apply (f_equal (Py.split ".")) in H. rewrite !dotted_split in H by done.
  injection H as H1 H2 H3 H4.
  repeat split; by apply str_octet_inj.
Qed.

Lemma length_append (s t : string) :
  String.length (s +:+ t) = (String.length s + String.length t)%nat.
Proof. induction s as [|x s IH]; [done|]. rewrite append_cons. simpl. by rewrite IH. Qed.

Lemma append_inj_r (t : string) : forall s1 s2, s1 +:+ t = s2 +:+ t -> s1 = s2.
Proof.
  induction s1 as [|x s1 IH]; intros [|y s2] H; [done| | |].
  - apply (f_equal String.length) in H. rewrite append_cons in H. simpl in H.
    rewrite !length_append in H. simpl in H. lia.
  - apply (f_equal String.length) in H. rewrite append_cons in H. simpl in H.
    rewrite !length_append in H. simpl in H. lia.
  - rewrite !append_cons in H. injection H as -> H. by rewrite (IH _ H).
Qed.

Lemma pair_base_half d : pair_base d = 2 * (d / 2).
Proof.
  unfold pair_base. pose proof (Z.div_mod d 2 ltac:(lia)) as H.
  rewrite Zmod_odd in H. destruct (Z.odd d); lia.
Qed.

(** X2.  Two addresses get the same /31 exactly when they agree on the first
    three octets and on the fourth up to its last bit; an address and the
    lower address of its pair get the same one. *)
Theorem network_s31_same_pair (a b c d a' b' c' d' : Z) :
  is_octet a -> is_octet b -> is_octet c -> is_octet d ->
  is_octet a' -> is_octet b' -> is_octet c' -> is_octet d' ->
  (network_s31 (dotted a b c d) = network_s31 (dotted a' b' c' d') <->
   a = a' /\ b = b' /\ c = c' /\ d / 2 = d' / 2) /\
  network_s31 (dotted a b c (pair_base d)) = network_s31 (dotted a b c d).
Proof.
  intros Ha Hb Hc Hd Ha' Hb' Hc' Hd'.
  pose proof (pair_base_octet d Hd) as Hp. pose proof (pair_base_octet d' Hd') as Hp'.
  split.
  - rewrite !network_s31_dotted by done. split.
    + intros [= H]. apply append_inj_r in H.
      apply dotted_inj in H as (-> & -> & -> & H); try done.
      rewrite !pair_base_half in H. repeat split. lia.
    + intros (-> & -> & -> & H). by rewrite !pair_base_half, H.
  - rewrite !network_s31_dotted by done.
    assert (E : pair_base (pair_base d) = pair_base d).
    { unfold pair_base at 1. by rewrite <- Z.negb_even, pair_base_even. }
    by rewrite E.
Qed.

Lemma network_s31_same_pair_witness :
  network_s31 (dotted 10 0 0 (pair_base 5)) = network_s31 (dotted 10 0 0 5) /\
  (network_s31 (dotted 10 0 0 5) = network_s31 (dotted 10 0 0 6) <->
   10 = 10 /\ 0 = 0 /\ 0 = 0 /\ 5 / 2 = 6 / 2).
Proof.
  assert (H10 : is_octet 10) by (unfold is_octet; lia).
  assert (H0 : is_octet 0) by (unfold is_octet; lia).
  assert (H5 : is_octet 5) by (unfold is_octet; lia).
  assert (H6 : is_octet 6) by (unfold is_octet; lia).
  split.
  - exact (proj2 (network_s31_same_pair 10 0 0 5 10 0 0 6 H10 H0 H0 H5 H10 H0 H0 H6)).
  - exact (proj1 (network_s31_same_pair 10 0 0 5 10 0 0 6 H10 H0 H0 H5 H10 H0 H0 H6)).
Defined.

(** ** The prober *)

Lemma split_join_id c (ls : list string) :
  ls <> [] -> Forall (fun s => Py.contains c s = false) ls ->
  Py.split c (join c ls) = ls.
Proof.
  induction ls as [|p [|q rest] IH]; intros Hne Hall; [done| |].
  - simpl. apply split_no_sep. by inversion Hall.
  - inversion Hall as [|? ? Hp Hrest]; subst.
    change (join c (p :: q :: rest)) with (p +:+ String c (join c (q :: rest))).
    rewrite split_app_sep by done. f_equal. by apply IH.
Qed.

Lemma filter_nonempty_blanks (blanks : list string) :
  Forall (fun s => s = EmptyString) blanks -> List.filter nonempty blanks = [].
Proof. induction 1 as [|s l -> _ IH]; [done|]. simpl. exact IH. Qed.

Lemma last_nonempty_line (lines blanks : list string) (line : string) :
  nonempty line = true -> Forall (fun s => s = EmptyString) blanks ->
  last_item (List.filter nonempty (lines ++ line :: blanks)) = Ok line.
Proof.
  intros Hl Hb. rewrite List.filter_app. simpl.
  rewrite Hl, (filter_nonempty_blanks blanks) by done.
  unfold last_item. by rewrite rev_app_distr.
Qed.

Lemma second_field c (a b tail : string) :
  Py.contains c a = false -> Py.contains c b = false ->
  tail = EmptyString \/ (exists t, tail = String c t) ->
  Py.split c (a +:+ String c (b +:+ tail)) !! 1%nat = Some b.
Proof.
  intros Ha Hb [->|[t ->]]; rewrite split_app_sep by done.
  - by rewrite append_empty_r, split_no_sep.
  - by rewrite split_app_sep.
Qed.

(** X4.  [getLatency] gives the second of the slash-separated numbers that
    follow the equals sign of the last non-empty line, whatever comes
    before that line and however many empty lines follow it: for the
    summary line of [ping], the average. *)
Theorem getLatency_reads_avg (lines blanks : list string)
    (label first avg tail : string) :
  let line := label +:+ "=" +:+ first +:+ "/" +:+ avg +:+ tail in
  Forall (fun s => Py.contains newline s = false) (lines ++ line :: blanks) ->
  Forall (fun s => s = EmptyString) blanks ->
  Py.contains "=" label = false ->
  Py.contains "=" (first +:+ "/" +:+ avg +:+ tail) = false ->
  Py.contains "/" first = false -> Py.contains "/" avg = false ->
  tail = EmptyString \/ (exists t, tail = String "/" t) ->
  getLatency (join newline (lines ++ line :: blanks)) =
    ([DebugPingResult line], Ok (avg +:+ " ms")).
Proof.
  intros line Hnl Hb Hl Ht Hf Ha Htail. unfold getLatency.
  rewrite split_join_id by (done || by destruct lines).
  assert (Hne : nonempty line = true) by (unfold line; by destruct label).
  rewrite last_nonempty_line by done. f_equal.
  unfold line.
  change ("=" +:+ ?s) with (String "=" s).
  rewrite split_app_sep, split_no_sep by done. simpl.
  change ("/" +:+ ?s) with (String "/" s).
  unfold Py.index. by rewrite second_field.
Qed.

Lemma getLatency_reads_avg_witness :
  getLatency
    (join newline
       ["PING 10.0.0.5 (10.0.0.5) 56(84) bytes of data.";
        "rtt min/avg/max/mdev = 0.045/0.051/0.060/0.004 ms"; ""]) =
  ([DebugPingResult "rtt min/avg/max/mdev = 0.045/0.051/0.060/0.004 ms"],
   Ok "0.051 ms").
Proof.
  apply (getLatency_reads_avg
           ["PING 10.0.0.5 (10.0.0.5) 56(84) bytes of data."] [""]
           "rtt min/avg/max/mdev " " 0.045" "0.051" "/0.060/0.004 ms").
  - repeat constructor.
  - repeat constructor.
  - reflexivity.
  - reflexivity.
  - reflexivity.
  - reflexivity.
  - right. by eexists.
Defined.

(** X5.  [getLatency] raises [IndexError] when the output has no non-empty
    line, when its last non-empty line has no equals sign, and when what
    follows the first equals sign of that line, up to the next one, has no
    slash. *)
Theorem getLatency_IndexError (output : string) :
  (List.filter nonempty (Py.split newline output) = [] ->
     getLatency output = ([], Err (Uncaught "IndexError"))) /\
  (forall line,
     last_item (List.filter nonempty (Py.split newline output)) = Ok line ->
     Py.contains "=" line = false ->
     getLatency output = ([DebugPingResult line], Err (Uncaught "IndexError"))) /\
  (forall line label timing rest,
     last_item (List.filter nonempty (Py.split newline output)) = Ok line ->
     Py.split "=" line = label :: timing :: rest ->
     Py.contains "/" timing = false ->
     getLatency output = ([DebugPingResult line], Err (Uncaught "IndexError"))).
Proof.
  unfold getLatency. split; [|split].
  - by intros ->.
  - intros line -> Hno. by rewrite split_no_sep.
  - intros line label timing rest -> -> Hno. simpl. by rewrite split_no_sep.
Qed.

Lemma getLatency_IndexError_witness :
  getLatency "1 packets transmitted, 1 received" =
  ([DebugPingResult "1 packets transmitted, 1 received"],
   Err (Uncaught "IndexError")).
Proof.
  exact (proj1 (proj2 (getLatency_IndexError "1 packets transmitted, 1 received"))
           "1 packets transmitted, 1 received" eq_refl eq_refl).
Defined.

Lemma nonempty_false (s : string) : nonempty s = false <-> s = EmptyString.
Proof. by destruct s. Qed.

(** X6.  When [isAlive] returns, the command was run to completion, the
    target is reported alive exactly when the command returned 0, and the
    latency is missing (the initial 0) exactly when the command failed or
    printed nothing. *)
Theorem isAlive_verdict (py : Z) (run : list string -> Res Completed)
    (os : OsSettings) (pargs : ProbeArgs) (host : string) (b : bool)
    (lat : option string) :
  (isAlive py run os pargs host).2 = Ok (b, lat) ->
  exists proc,
    run (ping_command os pargs host) = Ok proc /\
    (b = true <-> returncode proc = 0) /\
    (lat = None <-> returncode proc <> 0 \/ stdout proc = EmptyString) /\
    (outcome_of (b, lat) = Unreachable <-> returncode proc <> 0).
Proof.
  unfold isAlive. cbv zeta.
  destruct (run (ping_command os pargs host)) as [proc|f0]; [|done].
  intros H. exists proc. split; [done|].
  assert (Hcore : (b = true <-> returncode proc = 0) /\
                  (lat = None <-> returncode proc <> 0 \/ stdout proc = EmptyString));
    [|destruct Hcore as [Hb Hl]; split; [done|]; split; [done|];
      unfold outcome_of; simpl; destruct b;
      [split; [done|intros Hn; by destruct Hn; apply Hb]
      |split; [intros _ Hr; apply Hb in Hr; done|done]]].
  revert H.
  assert (Hok : forall out : string,
             decode_ascii (stdout proc) = Ok out -> out = stdout proc).
  { unfold decode_ascii. destruct (is_ascii _); [|done]. by intros out [= <-]. }
  destruct (returncode proc =? 0) eqn:Er;
    [apply Z.eqb_eq in Er|apply Z.eqb_neq in Er].
  - assert (Hb : forall l0 : list ProbeLog,
               (match (([] : list ProbeLog),
                       output ← decode_ascii (stdout proc); Ok (output, true)) with
                | (log1, Err f) => (l0 ++ log1, Err f)
                | (log1, Ok (output, result)) =>
                    if nonempty output then
                      match getLatency output with
                      | (log2, Ok latency) =>
                          (l0 ++ log1 ++ [DebugOutput output] ++ log2,
                           Ok (result, Some latency))
                      | (log2, Err f) =>
                          (l0 ++ log1 ++ [DebugOutput output] ++ log2, Err f)
                      end
                    else (l0 ++ log1, Ok (result, None))
                end).2 = Ok (b, lat) ->
               (b = true <-> returncode proc = 0) /\
               (lat = None <-> returncode proc <> 0 \/ stdout proc = EmptyString)).
    { intros l0. destruct (decode_ascii (stdout proc)) as [out|f] eqn:Ed; simpl; [|done].
      rewrite (Hok out eq_refl).
      destruct (nonempty (stdout proc)) eqn:En.
      - destruct (getLatency (stdout proc)) as [log2 [latency|f]]; simpl; [|done].
        intros [= <- <-]. split; [done|]. split; [done|].
        intros [?|E]; [done|]. by rewrite E in En.
      - simpl. intros [= <- <-]. apply nonempty_false in En. split; [done|].
        split; [by right|done]. }
    destruct (py <? 3); apply Hb.
  - destruct (py <? 3).
    + simpl. intros [= <- <-]. split; [done|]. split; [by left|done].
    + destruct (decode_ascii (stderr proc)) as [text|f]; simpl; [|done].
      intros [= <- <-]. split; [done|]. split; [by left|done].
Qed.

Lemma isAlive_verdict_witness :
  (isAlive 2
     (fun _ => Ok {| returncode := 1; stdout := "PING"; stderr := "" |})
     {| timeUnit := 1; sourceSetting := "-I" |}
     {| timeout := 1; source := None |} "10.0.0.5").2 = Ok (false, None) /\
  exists proc,
    Ok {| returncode := 1; stdout := "PING"; stderr := "" |} = Ok proc /\
    (false = true <-> returncode proc = 0).
Proof.
  split; [reflexivity|].
  destruct (isAlive_verdict 2
              (fun _ => Ok {| returncode := 1; stdout := "PING"; stderr := "" |})
              {| timeUnit := 1; sourceSetting := "-I" |}
              {| timeout := 1; source := None |} "10.0.0.5" false None eq_refl)
    as (proc & Hrun & Hb & _).
  exists proc. split; [exact Hrun|exact Hb].
Defined.

Lemma decode_ascii_cases (b : string) :
  (is_ascii b = true /\ decode_ascii b = Ok b) \/
  (is_ascii b = false /\ decode_ascii b = Err (Uncaught "UnicodeDecodeError")).
Proof. unfold decode_ascii. destruct (is_ascii b); [by left|by right]. Qed.

(** X7.  [isAlive] raises in four cases only: running the command raised,
    and [isAlive] raises the same, having logged the interpreter version
    and the command; or the command ran to completion and: it returned 0
    and its output is not ASCII; it returned 0, printed something, and
    [getLatency] raises on it; under Python 3, it failed and its error
    output is not ASCII.  Under Python 2 a command that ran and failed
    never makes it raise. *)
Theorem isAlive_raises (py : Z) (run : list string -> Res Completed)
    (os : OsSettings) (pargs : ProbeArgs) (host : string) (f : Failure) :
  ((isAlive py run os pargs host).2 = Err f <->
   match run (ping_command os pargs host) with
   | Err f' => f = f'
   | Ok proc =>
       (returncode proc = 0 /\ is_ascii (stdout proc) = false /\
        f = Uncaught "UnicodeDecodeError") \/
       (returncode proc = 0 /\ is_ascii (stdout proc) = true /\
        stdout proc <> EmptyString /\ (getLatency (stdout proc)).2 = Err f) \/
       (3 <= py /\ returncode proc <> 0 /\ is_ascii (stderr proc) = false /\
        f = Uncaught "UnicodeDecodeError")
   end) /\
  (run (ping_command os pargs host) = Err f ->
   isAlive py run os pargs host =
     ([DebugPythonVersion py; DebugCommand (ping_command os pargs host)], Err f)).
Proof.
  split; [|unfold isAlive; by intros ->].
  unfold isAlive. cbv zeta.
  destruct (run (ping_command os pargs host)) as [proc|f0];
    [|simpl; split; congruence].
  destruct (returncode proc =? 0) eqn:Er;
    [apply Z.eqb_eq in Er|apply Z.eqb_neq in Er].
  - assert (Hb : forall l0 : list ProbeLog,
               (match (([] : list ProbeLog),
                       output ← decode_ascii (stdout proc); Ok (output, true)) with
                | (log1, Err f) => (l0 ++ log1, Err f)
                | (log1, Ok (output, result)) =>
                    if nonempty output then
                      match getLatency output with
                      | (log2, Ok latency) =>
                          (l0 ++ log1 ++ [DebugOutput output] ++ log2,
                           Ok (result, Some latency))
                      | (log2, Err f) =>
                          (l0 ++ log1 ++ [DebugOutput output] ++ log2, Err f)
                      end
                    else (l0 ++ log1, Ok (result, None))
                end).2 = Err f <->
               (returncode proc = 0 /\ is_ascii (stdout proc) = false /\
                f = Uncaught "UnicodeDecodeError") \/
               (returncode proc = 0 /\ is_ascii (stdout proc) = true /\
                stdout proc <> EmptyString /\ (getLatency (stdout proc)).2 = Err f) \/
               (3 <= py /\ returncode proc <> 0 /\ is_ascii (stderr proc) = false /\
                f = Uncaught "UnicodeDecodeError")).
    { intros l0.
      destruct (decode_ascii_cases (stdout proc)) as [[Ha ->]|[Ha ->]]; simpl.
      - destruct (nonempty (stdout proc)) eqn:En.
        + destruct (getLatency (stdout proc)) as [log2 [latency|f']] eqn:Eg; simpl.
          * split; [done|]. intros [(_ & ? & _)|[(_ & _ & _ & ?)|(_ & ? & _)]]; congruence.
          * split.
            -- intros [= <-]. right. left. repeat split; try done.
               intros E. by rewrite E in En.
            -- intros [(_ & ? & _)|[(_ & _ & _ & ?)|(_ & ? & _)]]; congruence.
        + simpl. apply nonempty_false in En. split; [done|].
          intros [(_ & ? & _)|[(_ & _ & ? & _)|(_ & ? & _)]]; congruence.
      - split.
        + intros [= <-]. by left.
        + intros [(_ & _ & ->)|[(_ & ? & _)|(_ & ? & _)]]; congruence. }
    destruct (py <? 3); apply Hb.
  - destruct (py <? 3) eqn:Ep; [apply Z.ltb_lt in Ep|apply Z.ltb_ge in Ep].
    + simpl. split; [done|].
      intros [(? & _)|[(? & _)|(? & _)]]; (done || lia).
    + destruct (decode_ascii_cases (stderr proc)) as [[Ha ->]|[Ha ->]]; simpl.
      * split; [done|].
        intros [(? & _)|[(? & _)|(_ & _ & ? & _)]]; congruence.
      * split.
        -- intros [= <-]. right. right. by repeat split.
        -- intros [(? & _)|[(? & _)|(_ & _ & _ & ->)]]; done.
Qed.

(** A command that succeeds with output that has no equals sign in its
    last line makes [isAlive] raise [IndexError], under either version. *)
Lemma isAlive_raises_witness :
  (isAlive 2
     (fun _ => Ok {| returncode := 0; stdout := "1 packets transmitted, 1 received";
                     stderr := "" |})
     {| timeUnit := 1; sourceSetting := "-I" |}
     {| timeout := 1; source := None |} "10.0.0.5").2 =
  Err (Uncaught "IndexError") /\
  isAlive 3 (fun _ => Err (Uncaught "FileNotFoundError"))
     {| timeUnit := 1; sourceSetting := "-I" |}
     {| timeout := 1; source := None |} "10.0.0.5" =
  ([DebugPythonVersion 3;
    DebugCommand ["ping"; "-n"; "-c 1"; "-t 1"; "-W 1"; "10.0.0.5"]],
   Err (Uncaught "FileNotFoundError")).
Proof.
  split.
  - apply (proj2 (proj1 (isAlive_raises 2
                    (fun _ => Ok {| returncode := 0;
                                    stdout := "1 packets transmitted, 1 received";
                                    stderr := "" |})
                    {| timeUnit := 1; sourceSetting := "-I" |}
                    {| timeout := 1; source := None |} "10.0.0.5"
                    (Uncaught "IndexError")))).
    right. left. repeat split. discriminate.
  - exact (proj2 (isAlive_raises 3 (fun _ => Err (Uncaught "FileNotFoundError"))
                    {| timeUnit := 1; sourceSetting := "-I" |}
                    {| timeout := 1; source := None |} "10.0.0.5"
                    (Uncaught "FileNotFoundError")) eq_refl).
Defined.

(** X8.  On every system but Darwin, known or not, the settings are those of
    Linux and so is the command line; an unknown system only adds the
    error line.  On Darwin the wait is given in thousandths. *)
Theorem checkOS_fallback (osname : string) (pargs : ProbeArgs) (host : string) :
  osname <> "Darwin" ->
  (checkOS osname).2 = {| timeUnit := 1; sourceSetting := "-I" |} /\
  ping_command (checkOS osname).2 pargs host =
    ping_command (checkOS "Linux").2 pargs host /\
  ((checkOS osname).1 = [] <-> osname = "Linux") /\
  ping_command (checkOS "Darwin").2 pargs host !! 4%nat =
    Some ("-W " +:+ Py.str (timeout pargs * 1000)).
Proof.
  intros Hd. unfold checkOS.
  destruct (String.eqb_spec osname "Linux") as [->|Hl]; [by repeat split|].
  destruct (String.eqb_spec osname "Darwin") as [->|_]; [done|].
  by repeat split.
Qed.

Lemma checkOS_fallback_witness :
  "Windows" <> "Darwin" /\
  checkOS "Windows" = ([ErrorUnsupportedOS], {| timeUnit := 1; sourceSetting := "-I" |}) /\
  (checkOS "Windows").2 = {| timeUnit := 1; sourceSetting := "-I" |}.
Proof.
  assert (H : "Windows" <> "Darwin") by discriminate.
  split; [exact H|]. split; [reflexivity|].
  exact (proj1 (checkOS_fallback "Windows" {| timeout := 1; source := None |}
                  "10.0.0.5" H)).
Defined.

(** ** What the default log level shows *)

(** X9.  Without [-v] and [-V] the level is ERROR, and then a pass of the loop
    prints a log line exactly when it announces a death or a resurrection,
    whatever the switch does. *)
Theorem silent_unless_transition (py : Z) (a : Verbosity) (args : Args) (net31 : string)
    (v : Vars) (o : ProbeOutcome) (sw : Switch) :
  verbose a = false -> veryverbose a = false ->
  setLogging (parseArgs_verbosity a) = Error /\
  (displayed (setLogging (parseArgs_verbosity a))
     (loop_body py args net31 v o sw).1.1 = [] <->
   verdict (dampening args) v o = None).
Proof.
  intros Hv HV.
  assert (E : setLogging (parseArgs_verbosity a) = Error)
    by (destruct a as [vb vv]; simpl in *; by subst).
  split; [done|]. rewrite E.
  destruct (verdict (dampening args) v o) as [[]|] eqn:Ev.
  - apply verdict_dead_inv in Ev as (-> & Hw & Hd).
    rewrite loop_body_dead by done.
    destruct (api sw) eqn:Hs.
    + by rewrite set_filter_serving.
    + rewrite set_filter_failing by congruence. by rewrite Hs.
    + rewrite set_filter_failing by congruence. by rewrite Hs.
  - apply verdict_alive_inv in Ev as ([r ->] & Hw & Hd).
    rewrite loop_body_alive by done.
    by destruct (remove_if_in_place py args net31 sw) as [[t sw'] [[]|f]].
  - split; [done|]. intros _. revert Ev.
    unfold verdict, loop_body. destruct o as [response|]; rewrite bind_run.
    + destruct (wasAlive v) eqn:Ew; simpl; [done|].
      destruct (dampeningAlive v <? dampening args) eqn:E1; simpl; [done|].
      by destruct (dampeningAlive v =? dampening args) eqn:E2.
    + by destruct (wasAlive v && (dampening args <=? dampeningDead v + 1)) eqn:Eb.
Qed.

Lemma silent_unless_transition_witness :
  verbose {| verbose := false; veryverbose := false |} = false /\
  veryverbose {| verbose := false; veryverbose := false |} = false /\
  setLogging (parseArgs_verbosity {| verbose := false; veryverbose := false |}) = Error.
Proof.
  split; [reflexivity|]. split; [reflexivity|].
  exact (proj1 (silent_unless_transition 2 {| verbose := false; veryverbose := false |}
                  (Ex.args 3) Ex.net31 initial_vars Unreachable Ex.bare
                  eq_refl eq_refl)).
Defined.

(** ** [check_filter], [add_filter] and [remove_filter] together *)

Lemma last_match_snoc net31 es e :
  prefix e = net31 -> last_match net31 (es ++ [e]) = Some e.
Proof.
  intros Hp. unfold last_match. rewrite rev_app_distr. simpl.
  by rewrite (proj2 (String.eqb_eq _ _) Hp).
Qed.

Lemma last_match_split net31 es e :
  last_match net31 es = Some e ->
  exists es1 es2,
    es = es1 ++ e :: es2 /\ prefix e = net31 /\
    Forall (fun x => prefix x <> net31) es2.
Proof.
  unfold last_match. induction es as [|x es IH] using rev_ind; [done|].
  rewrite rev_app_distr. simpl.
  destruct (String.eqb_spec (prefix x) net31) as [Hp|Hp].
  - intros [= <-]. by exists es, [].
  - intros H. destruct (IH H) as (es1 & es2 & -> & He & Hall).
    exists es1, (es2 ++ [x]). rewrite <- app_assoc. split; [done|]. split; [done|].
    apply Forall_app. split; [done|]. by constructor.
Qed.

(** X10.  On a serving switch [check_filter] sends the show command and nothing
    else and leaves the switch as it was.  Under Python 2 it answers [True]
    exactly when some entry of the list has the prefix; the number it
    returns is then the sequence number of the last such entry of the
    list, and 0 when there is none.  Under Python 3 it raises
    [AttributeError], whatever the list holds. *)
Theorem check_filter_finds_last (py : Z) (net31 name : string) (sw : Switch) :
  api sw = Serving ->
  exists t r,
    check_filter py net31 name sw = (t, sw, r) /\
    api_calls t = [[ShowIpPrefixList name]] /\ notices t = [] /\
    (py < 3 ->
       exists b n,
         r = Ok (b, n) /\
         (b = true <->
            exists e, e ∈ Store.entries name (prefix_lists sw) /\ prefix e = net31) /\
         (b = true ->
            exists e es1 es2,
              Store.entries name (prefix_lists sw) = es1 ++ e :: es2 /\
              prefix e = net31 /\ seqno e = n /\
              Forall (fun x => prefix x <> net31) es2) /\
         (b = false -> n = 0)) /\
    (3 <= py -> r = Err (Uncaught "AttributeError")).
Proof.
  intros Hs. destruct (Z.lt_ge_cases py 3) as [Hpy|Hpy].
  - rewrite check_filter_serving by done. unfold check_result.
    destruct (last_match net31 (Store.entries name (prefix_lists sw))) as [e|] eqn:E;
      do 2 eexists; (split; [reflexivity|]);
      (split; [unfold api_calls; simpl; by rewrite omap_check_log|]);
      (split; [unfold notices; simpl; by rewrite omap_check_log|]);
      (split; [|lia]); intros _; do 2 eexists; (split; [reflexivity|]).
    + split; [|split; [|done]].
      * split; [|done]. intros _. exists e. by apply last_match_Some.
      * intros _. destruct (last_match_split _ _ _ E) as (es1 & es2 & H1 & H2 & H3).
        by exists e, es1, es2.
    + split; [|split; [done|done]].
      split; [done|]. intros (e & Hin & Hp). by destruct (last_match_None _ _ E e Hin).
  - rewrite check_filter_py3 by done. do 2 eexists.
    split; [reflexivity|]. split; [done|]. split; [done|]. split; [lia|done].
Qed.

Lemma check_filter_finds_last_witness :
  api (Ex.filtered Serving) = Serving /\
  exists t r,
    check_filter 2 Ex.net31 prefix_list_name (Ex.filtered Serving) =
      (t, Ex.filtered Serving, r) /\
    api_calls t = [[ShowIpPrefixList prefix_list_name]].
Proof.
  split; [reflexivity|].
  destruct (check_filter_finds_last 2 Ex.net31 prefix_list_name (Ex.filtered Serving)
              eq_refl) as (t & r & H1 & H2 & _).
  exists t, r. split; [exact H1|exact H2].
Defined.

(** X11.  Under Python 2, after [add_filter] on a serving switch,
    [check_filter] finds the prefix, with the sequence number of the entry
    just added. *)
Theorem add_then_check (py : Z) (net31 name : string) (sw : Switch) :
  py < 3 -> api sw = Serving ->
  exists t1 sw1 t2,
    add_filter net31 name sw = (t1, sw1, Ok tt) /\
    check_filter py net31 name sw1 =
      (t2, sw1, Ok (true, Store.next_seqno (Store.entries name (prefix_lists sw)))).
Proof.
  intros Hpy Hs. do 3 eexists. split; [by apply add_filter_serving|].
  rewrite check_filter_serving by done. cbn [prefix_lists].
  unfold check_result. rewrite entries_insertEntry, last_match_snoc by done.
  reflexivity.
Qed.

Lemma add_then_check_witness :
  2 < 3 /\ api Ex.bare = Serving /\
  exists t1 sw1 t2,
    add_filter Ex.net31 prefix_list_name Ex.bare = (t1, sw1, Ok tt) /\
    check_filter 2 Ex.net31 prefix_list_name sw1 =
      (t2, sw1,
       Ok (true, Store.next_seqno (Store.entries prefix_list_name (prefix_lists Ex.bare)))).
Proof.
  split; [reflexivity|]. split; [reflexivity|].
  exact (add_then_check 2 Ex.net31 prefix_list_name Ex.bare eq_refl eq_refl).
Defined.

Lemma next_seqno_above es x : x ∈ es -> seqno x < Store.next_seqno es.
Proof.
  unfold Store.next_seqno. induction 1 as [x es|x y es _ IH]; simpl; lia.
Qed.

Lemma filter_fresh_seqno (es : list PrefixEntry) n :
  (forall x, x ∈ es -> seqno x < n) ->
  filter (fun x => seqno x ≠ n) es = es.
Proof.
  induction es as [|y es IH]; intros H; [done|].
  rewrite filter_cons_True.
  - f_equal. apply IH. intros x Hx. apply H. by right.
  - specialize (H y ltac:(left)). simpl. lia.
Qed.

(** X12.  Under Python 2, death then resurrection is a round trip for the
    list: on a serving switch, the death branch followed by the removal
    step of the resurrection leaves the entries of the list exactly as
    they were. *)
Theorem filter_round_trip (py : Z) (args : Args) (net31 : string) (sw : Switch) :
  py < 3 -> api sw = Serving ->
  exists t sw',
    (set_filter args net31 ≫= fun _ => remove_if_in_place py args net31) sw =
      (t, sw', Ok tt) /\
    api sw' = Serving /\
    Store.entries prefix_list_name (prefix_lists sw') =
      Store.entries prefix_list_name (prefix_lists sw) /\
    api_calls t =
      [[Enable; Configure; IpPrefixListPermit prefix_list_name net31; End_];
       [ShowIpPrefixList prefix_list_name];
       [Enable; Configure;
        NoIpPrefixListSeq prefix_list_name
          (Store.next_seqno (Store.entries prefix_list_name (prefix_lists sw)));
        End_]].
Proof.
  intros Hpy Hs. rewrite bind_run, set_filter_serving by done. cbv beta iota.
  rewrite remove_if_in_place_serving by done. cbn [prefix_lists].
  rewrite entries_insertEntry, last_match_snoc by done.
  do 2 eexists. split; [reflexivity|]. split; [done|]. split.
  - cbn [prefix_lists seqno]. rewrite entries_removeEntry, entries_insertEntry.
    rewrite filter_app, filter_fresh_seqno by apply next_seqno_above.
    rewrite filter_cons_False by (simpl; intros H; by apply H).
    by rewrite filter_nil, app_nil_r.
  - unfold api_calls. simpl. rewrite omap_app, omap_check_log by done. reflexivity.
Qed.

Lemma filter_round_trip_witness :
  2 < 3 /\ api (Ex.filtered Serving) = Serving /\
  exists t sw',
    (set_filter (Ex.args 3) Ex.net31 ≫= fun _ => remove_if_in_place 2 (Ex.args 3) Ex.net31)
      (Ex.filtered Serving) = (t, sw', Ok tt) /\
    api sw' = Serving /\
    Store.entries prefix_list_name (prefix_lists sw') =
      Store.entries prefix_list_name (prefix_lists (Ex.filtered Serving)).
Proof.
  split; [reflexivity|]. split; [reflexivity|].
  destruct (filter_round_trip 2 (Ex.args 3) Ex.net31 (Ex.filtered Serving)
              eq_refl eq_refl) as (t & sw' & H1 & H2 & H3 & _).
  exists t, sw'. split; [exact H1|]. split; [exact H2|exact H3].
Defined.

(** X13.  Under Python 2, when the list holds two entries for the prefix
    under different sequence numbers, the removal step of the resurrection
    takes out one of them only: the prefix is still found afterwards. *)
Theorem resurrection_removes_one (py : Z) (args : Args) (net31 : string) (sw : Switch)
    (e1 e2 : PrefixEntry) :
  py < 3 -> api sw = Serving ->
  e1 ∈ Store.entries prefix_list_name (prefix_lists sw) ->
  e2 ∈ Store.entries prefix_list_name (prefix_lists sw) ->
  prefix e1 = net31 -> prefix e2 = net31 -> seqno e1 <> seqno e2 ->
  exists t sw' t' n,
    remove_if_in_place py args net31 sw = (t, sw', Ok tt) /\
    check_filter py net31 prefix_list_name sw' = (t', sw', Ok (true, n)).
Proof.
  intros Hpy Hs H1 H2 Hp1 Hp2 Hne.
  destruct (last_match_found _ _ _ H1 Hp1) as [e He].
  rewrite remove_if_in_place_serving, He by done.
  assert (Hleft : exists x,
             x ∈ Store.entries prefix_list_name
                   (Store.removeEntry prefix_list_name (seqno e) (prefix_lists sw)) /\
             prefix x = net31).
  { rewrite entries_removeEntry.
    destruct (decide (seqno e1 = seqno e)) as [E|E].
    - exists e2. split; [|done]. apply list_elem_of_filter. split; [congruence|done].
    - exists e1. split; [|done]. by apply list_elem_of_filter. }
  destruct Hleft as (x & Hx & Hpx).
  destruct (last_match_found _ _ _ Hx Hpx) as [e' He'].
  do 4 eexists. split; [reflexivity|].
  rewrite check_filter_serving by done. cbn [prefix_lists].
  unfold check_result. by rewrite He'.
Qed.

Lemma resurrection_removes_one_witness :
  exists t sw' t' n,
    remove_if_in_place 2 (Ex.args 3) Ex.net31
      {| api := Serving;
         prefix_lists :=
           {[ prefix_list_name := [ {| prefix := Ex.net31; seqno := 10 |};
                                    {| prefix := Ex.net31; seqno := 20 |} ] ]} |} =
      (t, sw', Ok tt) /\
    check_filter 2 Ex.net31 prefix_list_name sw' = (t', sw', Ok (true, n)).
Proof.
  apply (resurrection_removes_one 2 (Ex.args 3) Ex.net31 _
           {| prefix := Ex.net31; seqno := 10 |} {| prefix := Ex.net31; seqno := 20 |}).
  - reflexivity.
  - reflexivity.
  - vm_compute. left.
  - vm_compute. right. left.
  - reflexivity.
  - reflexivity.
  - discriminate.
Defined.

(** ** More on runs *)

Lemma main_loop_app (py : Z) args net31 os1 os2 v sw :
  main_loop py args net31 (os1 ++ os2) v sw =
  (main_loop py args net31 os1 v ≫= main_loop py args net31 os2) sw.
Proof.
  revert v sw. induction os1 as [|o os1 IH]; intros v sw.
  - rewrite bind_run. simpl. by destruct (main_loop py args net31 os2 v sw) as [[? ?] ?].
  - cbn [app main_loop]. rewrite !bind_run.
    destruct (loop_body py args net31 v o sw) as [[t1 sw1] [v1|f]]; [|done].
    rewrite IH, bind_run.
    destruct (main_loop py args net31 os1 v1 sw1) as [[t2 sw2] [v2|f]]; [|done].
    destruct (main_loop py args net31 os2 v2 sw2) as [[t3 sw3] r].
    by rewrite app_assoc.
Qed.

(** A run in which no pass announces anything never touches the switch. *)
Lemma quiet_run (py : Z) args net31 os : forall v sw,
  Forall (fun x => x = None) (verdicts (dampening args) os v) ->
  exists t,
    main_loop py args net31 os v sw = (t, sw, Ok (run_vars (dampening args) os v)) /\
    api_calls t = [] /\ notices t = [].
Proof.
  induction os as [|o os IH]; intros v sw Hq.
  - by exists [].
  - simpl in Hq. inversion Hq as [|? ? Hv Hrest]; subst.
    destruct (loop_body_quiet py args net31 v o sw Hv) as (t1 & Hb & Hc1 & Hn1 & _).
    destruct (IH _ sw Hrest) as (t2 & Hl & Hc2 & Hn2).
    exists (t1 ++ t2). cbn [main_loop]. rewrite bind_run, Hb, Hl.
    split; [done|]. unfold api_calls, notices in *.
    by rewrite !omap_app, Hc1, Hc2, Hn1, Hn2.
Qed.

Lemma next_vars_stays_alive D v o :
  wasAlive v = true -> verdict D v o = None ->
  wasAlive (next_vars D v o) = true.
Proof.
  intros Hw. unfold verdict, next_vars. rewrite Hw. destruct o as [r|]; simpl; [done|].
  by destruct (D <=? dampeningDead v + 1).
Qed.

Lemma no_death_run D os v0 :
  1 <= D -> wasAlive v0 = true -> dampeningDead v0 = 0 ->
  (forall pre post, os = pre ++ post -> trailing is_unreachable pre < D) ->
  Forall (fun x => x = None) (verdicts D os v0) /\
  wasAlive (run_vars D os v0) = true.
Proof.
  intros HD Hw H0. induction os as [|o os IH] using rev_ind; intros Hflap.
  - by split.
  - destruct IH as [Hq Hal].
    { intros pre post ->. apply (Hflap pre (post ++ [o])). by rewrite app_assoc. }
    assert (Hv : verdict D (run_vars D os v0) o = None).
    { destruct (verdict D (run_vars D os v0) o) as [[]|] eqn:E; [| |done].
      - apply (verdict_dead_iff D os o v0 HD H0) in E as (_ & _ & Ht).
        specialize (Hflap (os ++ [o]) [] ltac:(by rewrite app_nil_r)). lia.
      - apply verdict_alive_inv in E as (_ & Hdead & _). congruence. }
    split.
    + rewrite verdicts_app. apply Forall_app. split; [done|]. simpl. by constructor.
    + rewrite run_vars_snoc. by apply next_vars_stays_alive.
Qed.

(** X14.  Flaps are absorbed: from the alive state, with [D >= 1], a run that
    never has [D] failures in a row announces nothing and never calls the
    switch, whatever state the switch is in; the target is still believed
    alive at the end. *)
Theorem flaps_are_absorbed (py : Z) (args : Args) (net31 : string) (os : list ProbeOutcome)
    (v0 : Vars) (sw : Switch) :
  1 <= dampening args -> wasAlive v0 = true -> dampeningDead v0 = 0 ->
  (forall pre post, os = pre ++ post ->
     trailing is_unreachable pre < dampening args) ->
  exists t v,
    main_loop py args net31 os v0 sw = (t, sw, Ok v) /\
    wasAlive v = true /\ api_calls t = [] /\ notices t = [].
Proof.
  intros HD Hw H0 Hflap.
  destruct (no_death_run _ os v0 HD Hw H0 Hflap) as [Hq Hal].
  destruct (quiet_run py args net31 os v0 sw Hq) as (t & Hl & Hc & Hn).
  by exists t, (run_vars (dampening args) os v0).
Qed.

Lemma flaps_are_absorbed_witness :
  exists t v,
    main_loop 2 (Ex.args 2) Ex.net31 [Ex.U; Ex.R; Ex.U; Ex.R; Ex.U] initial_vars
      (Ex.filtered Faulting) = (t, Ex.filtered Faulting, Ok v) /\
    wasAlive v = true /\ api_calls t = [] /\ notices t = [].
Proof.
  apply (flaps_are_absorbed 2 (Ex.args 2) Ex.net31 [Ex.U; Ex.R; Ex.U; Ex.R; Ex.U]
           initial_vars (Ex.filtered Faulting)).
  - simpl. lia.
  - reflexivity.
  - reflexivity.
  - intros pre post H.
    destruct pre as [|o1 [|o2 [|o3 [|o4 [|o5 [|o6 pre]]]]]];
      simplify_eq/=; vm_compute; reflexivity.
Defined.

Lemma never_resurrects D os : forall v,
  D < 0 -> wasAlive v = false -> 0 <= dampeningAlive v ->
  Forall (fun x => x = None) (verdicts D os v) /\
  wasAlive (run_vars D os v) = false.
Proof.
  induction os as [|o os IH]; intros v HD Hw Ha; [by split|].
  assert (Hv : verdict D v o = None).
  { unfold verdict. rewrite Hw. destruct o; simpl; [|done].
    destruct (dampeningAlive v <? D) eqn:E1; simpl; [done|].
    destruct (dampeningAlive v =? D) eqn:E2; [|done]. apply Z.eqb_eq in E2. lia. }
  assert (Hn : wasAlive (next_vars D v o) = false /\ 0 <= dampeningAlive (next_vars D v o)).
  { unfold next_vars. rewrite Hw. destruct o; simpl; [|split; [done|lia]].
    destruct (dampeningAlive v <? D) eqn:E1; [apply Z.ltb_lt in E1; lia|].
    destruct (dampeningAlive v =? D) eqn:E2; [apply Z.eqb_eq in E2; lia|done]. }
  destruct Hn as [Hw' Ha'].
  destruct (IH (next_vars D v o) HD Hw' Ha') as [Hq Hf].
  split; [by constructor|done].
Qed.

(** X15.  With a negative dampening amount (the option takes any integer) a
    target believed dead is never resurrected: whatever the probe results
    and the state of the switch, the run announces nothing, never calls the
    switch, and ends with the target still believed dead. *)
Theorem negative_dampening_never_resurrects (py : Z) (args : Args) (net31 : string)
    (os : list ProbeOutcome) (v : Vars) (sw : Switch) :
  dampening args < 0 -> wasAlive v = false -> 0 <= dampeningAlive v ->
  exists t v',
    main_loop py args net31 os v sw = (t, sw, Ok v') /\
    wasAlive v' = false /\ api_calls t = [] /\ notices t = [].
Proof.
  intros HD Hw Ha.
  destruct (never_resurrects _ os v HD Hw Ha) as [Hq Hf].
  destruct (quiet_run py args net31 os v sw Hq) as (t & Hl & Hc & Hn).
  by exists t, (run_vars (dampening args) os v).
Qed.

Lemma negative_dampening_never_resurrects_witness :
  exists t v',
    main_loop 2 (Ex.args (-1)) Ex.net31 [Ex.R; Ex.R; Ex.R; Ex.R] Ex.dead_vars
      (Ex.filtered Serving) = (t, Ex.filtered Serving, Ok v') /\
    wasAlive v' = false /\ api_calls t = [] /\ notices t = [].
Proof.
  apply (negative_dampening_never_resurrects 2 (Ex.args (-1)) Ex.net31
           [Ex.R; Ex.R; Ex.R; Ex.R] Ex.dead_vars (Ex.filtered Serving)).
  - simpl. lia.
  - reflexivity.
  - simpl. lia.
Defined.

Lemma verdict_alive_next D v o :
  verdict D v o = Some BecameAlive -> wasAlive (next_vars D v o) = true.
Proof.
  intros ([r ->] & Hw & Ha)%verdict_alive_inv. simpl.
  by rewrite Hw, Ha, Z.ltb_irrefl, Z.eqb_refl.
Qed.

Lemma alive_until_dead D l2 : forall os v x l3,
  wasAlive v = true ->
  verdicts D os v = l2 ++ x :: l3 ->
  Some BecameDead ∉ l2 -> x <> Some BecameAlive.
Proof.
  induction l2 as [|y l2 IH]; intros os v x l3 Hw H Hnot.
  - destruct os as [|o os]; [done|]. simpl in H. injection H as <- _.
    intros (_ & Hw' & _)%verdict_alive_inv. congruence.
  - destruct os as [|o os]; [done|]. simpl in H. injection H as Hy H.
    assert (Hw' : wasAlive (next_vars D v o) = true).
    { destruct (verdict D v o) as [[]|] eqn:E.
      - set_solver.
      - by apply verdict_alive_next.
      - by apply next_vars_stays_alive. }
    apply (IH _ _ _ _ Hw' H). set_solver.
Qed.

(** X16.  The announcements of a run alternate: between two resurrections there
    is a death, and the first announcement of a run that starts with the
    target believed alive is a death.  This holds up to a failure of the
    switch as well. *)
Theorem transitions_alternate (py : Z) (args : Args) (net31 : string)
    (os : list ProbeOutcome) (v : Vars) (sw : Switch) :
  (forall l1 l2 l3,
     transitions py args net31 os v sw =
       l1 ++ Some BecameAlive :: l2 ++ Some BecameAlive :: l3 ->
     Some BecameDead ∈ l2) /\
  (forall l1 x l3,
     wasAlive v = true ->
     transitions py args net31 os v sw = l1 ++ Some x :: l3 ->
     Forall (fun y => y = None) l1 -> x = BecameDead).
Proof.
  destruct (transitions_prefix py args net31 os v sw) as [rest Hp]. split.
  - intros l1 l2 l3 H. rewrite H in Hp.
    rewrite <- !app_assoc in Hp. simpl in Hp. rewrite <- !app_assoc in Hp. simpl in Hp.
    apply verdicts_split in Hp as (os1 & os2 & -> & _ & Hp).
    destruct os2 as [|o os2]; [done|]. simpl in Hp. injection Hp as Hv Hp.
    destruct (decide (Some BecameDead ∈ l2)) as [|Hnot]; [done|].
    by destruct (alive_until_dead _ l2 _ _ _ _ (verdict_alive_next _ _ o Hv) Hp Hnot).
  - intros l1 x l3 Hw H Hnone. rewrite H in Hp.
    rewrite <- !app_assoc in Hp. simpl in Hp.
    destruct x; [done|exfalso].
    apply (alive_until_dead _ l1 _ _ _ _ Hw Hp); [|done].
    intros Hin. rewrite Forall_forall in Hnone. by specialize (Hnone _ Hin).
Qed.

Lemma transitions_alternate_witness :
  wasAlive initial_vars = true /\
  transitions 2 (Ex.args 1) Ex.net31 [Ex.U; Ex.U; Ex.R; Ex.R; Ex.U] initial_vars Ex.bare =
    [] ++ Some BecameDead :: [None; None; Some BecameAlive; Some BecameDead] /\
  BecameDead = BecameDead.
Proof.
  split; [reflexivity|].
  assert (H : transitions 2 (Ex.args 1) Ex.net31 [Ex.U; Ex.U; Ex.R; Ex.R; Ex.U]
                initial_vars Ex.bare =
              [] ++ Some BecameDead :: [None; None; Some BecameAlive; Some BecameDead])
    by (vm_compute; reflexivity).
  split; [exact H|].
  exact (proj2 (transitions_alternate 2 (Ex.args 1) Ex.net31
                  [Ex.U; Ex.U; Ex.R; Ex.R; Ex.U] initial_vars Ex.bare)
           [] BecameDead [None; None; Some BecameAlive; Some BecameDead]
           eq_refl H (List.Forall_nil _)).
Defined.

Lemma counters_step D v o n :
  0 <= D -> 0 <= n ->
  0 <= dampeningAlive v <= D ->
  (wasAlive v = true -> dampeningAlive v = 0) ->
  (wasAlive v = false -> dampeningAlive v = n) ->
  let v' := next_vars D v o in
  let n' := if is_reachable o then n + 1 else 0 in
  0 <= dampeningAlive v' <= D /\
  (wasAlive v' = true -> dampeningAlive v' = 0) /\
  (wasAlive v' = false -> dampeningAlive v' = n').
Proof.
  intros HD Hn Hb Hal Hde. destruct o as [r|]; simpl.
  - destruct (wasAlive v) eqn:Ew; simpl.
    + rewrite Hal by done. repeat split; (done || lia).
    + destruct (dampeningAlive v <? D) eqn:E1; simpl.
      * apply Z.ltb_lt in E1. rewrite Hde by done. repeat split; (done || lia).
      * apply Z.ltb_ge in E1.
        assert (E2 : (dampeningAlive v =? D) = true) by (apply Z.eqb_eq; lia).
        rewrite E2. simpl. repeat split; (done || lia).
  - repeat split; (done || lia).
Qed.

(** X17.  The recovery counter: from a start of the loop (both counters 0), with
    [D >= 0], whenever the loop returns, under either interpreter and
    whatever the switch does, [dampeningAlive] is between 0 and [D]; it is
    0 if the target is believed alive, and if the target is believed dead
    it is the number of successes since the last failure.  On a serving
    switch the loop does return, under Python 2 always and under Python 3
    when no resurrection is announced. *)
Theorem dampeningAlive_counts (py : Z) (args : Args) (net31 : string) (b : bool)
    (os : list ProbeOutcome) (sw : Switch) :
  0 <= dampening args ->
  let v0 := {| dampeningDead := 0; dampeningAlive := 0; wasAlive := b |} in
  (api sw = Serving ->
   py < 3 \/ Some BecameAlive ∉ transitions py args net31 os v0 sw ->
   exists t sw' v, main_loop py args net31 os v0 sw = (t, sw', Ok v)) /\
  (forall t sw' v,
     main_loop py args net31 os v0 sw = (t, sw', Ok v) ->
     0 <= dampeningAlive v <= dampening args /\
     (wasAlive v = true -> dampeningAlive v = 0) /\
     (wasAlive v = false -> dampeningAlive v = trailing is_reachable os)).
Proof.
  intros HD v0. split.
  - intros Hs Hpy.
    destruct (main_loop_returns py args net31 os v0 sw Hs Hpy) as (t & sw' & Hl & _).
    eauto.
  - intros t sw' v [-> _]%main_loop_result.
    induction os as [|o os IH] using rev_ind.
    + unfold run_vars. simpl. repeat split; (done || lia).
    + destruct IH as (Hb & Hal & Hde).
      rewrite run_vars_snoc, trailing_snoc.
      apply counters_step; try done.
      unfold trailing. induction (rev os) as [|x l IHl]; simpl; [done|].
      destruct (is_reachable x); lia.
Qed.

Lemma dampeningAlive_counts_witness :
  0 <= dampening (Ex.args 3) /\
  exists t sw' v,
    main_loop 3 (Ex.args 3) Ex.net31 [Ex.R; Ex.U; Ex.R; Ex.R]
      {| dampeningDead := 0; dampeningAlive := 0; wasAlive := false |}
      (Ex.filtered Serving) = (t, sw', Ok v) /\
    0 <= dampeningAlive v <= dampening (Ex.args 3) /\
    (wasAlive v = true -> dampeningAlive v = 0) /\
    (wasAlive v = false ->
     dampeningAlive v = trailing is_reachable [Ex.R; Ex.U; Ex.R; Ex.R]).
Proof.
  assert (H0 : 0 <= dampening (Ex.args 3)) by (simpl; lia).
  split; [exact H0|].
  destruct (dampeningAlive_counts 3 (Ex.args 3) Ex.net31 false [Ex.R; Ex.U; Ex.R; Ex.R]
              (Ex.filtered Serving) H0) as [Hret Hinv].
  destruct Hret as (t & sw' & v & Hl); [reflexivity|right; absent|].
  exists t, sw', v. split; [exact Hl|]. exact (Hinv t sw' v Hl).
Defined.

(** X18.  A switch whose API is not serving when [main] starts ends [main]
    before the loop: no probe result is handled and no notice is sent.
    With the socket file missing it is the exit of [build_connection],
    before any call; otherwise the exception of the show command. *)
Theorem start_needs_api (py : Z) (args : Args) (net31 : string) (os : list ProbeOutcome)
    (sw : Switch) :
  network_s31 (host0 args) = Ok net31 -> api sw <> Serving ->
  exists t,
    main py args os sw = (t, sw, Err (api_failure (api sw))) /\
    notices t = [] /\
    api_calls t =
      match api sw with
      | SocketMissing => []
      | _ => [[ShowIpPrefixList prefix_list_name]]
      end.
Proof.
  intros Hn Hs. unfold main, main_start.
  rewrite !bind_run. unfold lift at 1. rewrite Hn. cbv beta iota.
  bind_step. rewrite bind_run, check_filter_failing by done.
  eexists. split; [reflexivity|]. by destruct (api sw).
Qed.

Lemma start_needs_api_witness :
  network_s31 (host0 (Ex.args 3)) = Ok Ex.net31 /\
  api (Ex.filtered SocketMissing) <> Serving /\
  exists t,
    main 2 (Ex.args 3) [Ex.U; Ex.U; Ex.U] (Ex.filtered SocketMissing) =
      (t, Ex.filtered SocketMissing,
       Err (api_failure (api (Ex.filtered SocketMissing)))) /\
    notices t = [] /\
    api_calls t =
      match api (Ex.filtered SocketMissing) with
      | SocketMissing => []
      | _ => [[ShowIpPrefixList prefix_list_name]]
      end.
Proof.
  assert (H : api (Ex.filtered SocketMissing) <> Serving) by discriminate.
  split; [reflexivity|]. split; [exact H|].
  exact (start_needs_api 2 (Ex.args 3) Ex.net31 [Ex.U; Ex.U; Ex.U]
           (Ex.filtered SocketMissing) eq_refl H).
Defined.

(** ** A whole episode *)

Lemma main_loop_single (py : Z) args net31 o v sw :
  main_loop py args net31 [o] v sw = loop_body py args net31 v o sw.
Proof.
  cbn [main_loop]. rewrite bind_run.
  destruct (loop_body py args net31 v o sw) as [[t sw'] [v'|f]]; simpl; [|done].
  by rewrite app_nil_r.
Qed.

Lemma failing D n : forall v,
  wasAlive v = true -> dampeningAlive v = 0 ->
  dampeningDead v + Z.of_nat n < D ->
  verdicts D (replicate n Unreachable) v = replicate n None /\
  run_vars D (replicate n Unreachable) v =
    {| dampeningDead := dampeningDead v + Z.of_nat n; dampeningAlive := 0;
       wasAlive := true |}.
Proof.
  induction n as [|n IH]; intros v Hw Ha Hlt.
  - split; [done|]. unfold run_vars. simpl. destruct v; simpl in *; subst.
    f_equal. lia.
  - assert (E : (D <=? dampeningDead v + 1) = false) by (apply Z.leb_gt; lia).
    assert (Hn : next_vars D v Unreachable =
                 {| dampeningDead := dampeningDead v + 1; dampeningAlive := 0;
                    wasAlive := true |})
      by (unfold next_vars; by rewrite Hw, E).
    destruct (IH (next_vars D v Unreachable)) as [Hv Hr];
      [by rewrite Hn|by rewrite Hn|rewrite Hn; simpl; lia|].
    change (run_vars D (replicate (S n) Unreachable) v)
      with (run_vars D (replicate n Unreachable) (next_vars D v Unreachable)).
    cbn [replicate verdicts]. rewrite Hv, Hr, Hn.
    unfold verdict. rewrite Hw, E. simpl. split; [done|]. f_equal. lia.
Qed.

Lemma replicate_None_absent (x : Transition) n :
  Some x ∉ replicate n (None : option Transition).
Proof. by intros [? _]%elem_of_replicate. Qed.

(** X19.  A whole episode on a serving switch, from the first state of the loop:
    [D] failures in a row then [D + 1] successes in a row announce one
    death, in pass [D], and one resurrection, in the last pass, under
    either interpreter.  Under Python 2 the calls are the permit command,
    the show command and the removal by the sequence number of the entry
    added; at the end the variables are those of the start and the list
    has the entries it had.  Under Python 3 the last pass ends the loop
    with [AttributeError] after the show command, and the entry added at
    the death stays in the list. *)
Theorem death_and_resurrection (py : Z) (args : Args) (net31 response : string) (sw : Switch) :
  1 <= dampening args -> api sw = Serving ->
  let n := Z.to_nat (dampening args) in
  let os := replicate n Unreachable ++ replicate (S n) (Reachable response) in
  transitions py args net31 os initial_vars sw =
    replicate (n - 1) None ++ [Some BecameDead] ++
    replicate n None ++ [Some BecameAlive] /\
  (py < 3 ->
   exists t sw',
     main_loop py args net31 os initial_vars sw = (t, sw', Ok initial_vars) /\
     api sw' = Serving /\
     Store.entries prefix_list_name (prefix_lists sw') =
       Store.entries prefix_list_name (prefix_lists sw) /\
     api_calls t =
       [[Enable; Configure; IpPrefixListPermit prefix_list_name net31; End_];
        [ShowIpPrefixList prefix_list_name];
        [Enable; Configure;
         NoIpPrefixListSeq prefix_list_name
           (Store.next_seqno (Store.entries prefix_list_name (prefix_lists sw)));
         End_]]) /\
  (3 <= py ->
   exists t sw',
     main_loop py args net31 os initial_vars sw =
       (t, sw', Err (Uncaught "AttributeError")) /\
     Store.entries prefix_list_name (prefix_lists sw') =
       Store.entries prefix_list_name (prefix_lists sw) ++
       [{| prefix := net31;
           seqno := Store.next_seqno
                      (Store.entries prefix_list_name (prefix_lists sw)) |}] /\
     api_calls t =
       [[Enable; Configure; IpPrefixListPermit prefix_list_name net31; End_];
        [ShowIpPrefixList prefix_list_name]]).
Proof.
  intros HD Hs n os.
  set (D := dampening args) in *.
  destruct n as [|m] eqn:En; [lia|].
  assert (Hm : Z.of_nat m = D - 1) by lia.
  assert (Hos : os = replicate m Unreachable ++ [Unreachable] ++
                     replicate (S m) (Reachable response) ++ [Reachable response]).
  { unfold os. by rewrite (replicate_S_end m), (replicate_S_end (S m)), <- !app_assoc. }
  (* the passes before the death *)
  destruct (failing D m initial_vars eq_refl eq_refl) as [HvA HrA]; [simpl; lia|].
  change (dampeningDead initial_vars + Z.of_nat m) with (Z.of_nat m) in HrA.
  set (vA := {| dampeningDead := Z.of_nat m; dampeningAlive := 0;
                wasAlive := true |}) in *.
  (* the death *)
  set (vB := {| dampeningDead := Z.of_nat m + 1; dampeningAlive := 0;
                wasAlive := false |}).
  assert (HvB : verdict D vA Unreachable = Some BecameDead).
  { unfold verdict. simpl. assert (E : (D <=? Z.of_nat m + 1) = true)
      by (apply Z.leb_le; lia). by rewrite E. }
  assert (HnB : next_vars D vA Unreachable = vB).
  { unfold next_vars, vB. simpl. assert (E : (D <=? Z.of_nat m + 1) = true)
      by (apply Z.leb_le; lia). by rewrite E. }
  (* the passes of the recovery *)
  destruct (recovering D response (S m) vB eq_refl) as (HvC & HwC & HaC);
    [simpl; lia|].
  set (vC := run_vars D (replicate (S m) (Reachable response)) vB) in *.
  simpl dampeningAlive in HaC.
  assert (HaC' : dampeningAlive vC = D) by lia.
  assert (HvD : verdict D vC (Reachable response) = Some BecameAlive).
  { unfold verdict. by rewrite HwC, HaC', Z.ltb_irrefl, Z.eqb_refl. }
  split.
  - replace (S m - 1)%nat with m by lia.
    rewrite !app_assoc.
    apply transitions_until_alive; [done| |].
    + fold D. rewrite Hos.
      rewrite verdicts_app, HvA. fold vA. rewrite HrA.
      rewrite <- !app_assoc. f_equal.
      change ([Unreachable] ++ ?l) with (Unreachable :: l).
      cbn [verdicts]. rewrite HvB, HnB.
      change ([Some BecameDead] ++ ?l) with (Some BecameDead :: l). f_equal.
      rewrite verdicts_app, HvC. f_equal. fold vC.
      cbn [verdicts]. by rewrite HvD.
    + rewrite !elem_of_app, list_elem_of_singleton.
      intros [[H|H]|H]; [|done|]; by apply replicate_None_absent in H.
  - rewrite Hos, main_loop_app, bind_run.
    destruct (quiet_run py args net31 (replicate m Unreachable) initial_vars sw)
      as (tA & HlA & HcA & _).
    { fold D. rewrite HvA. by apply Forall_replicate. }
    fold D in HlA. rewrite HrA in HlA. rewrite HlA.
    rewrite main_loop_app, bind_run, main_loop_single.
    rewrite loop_body_dead, set_filter_serving by (done || (simpl; fold D; lia)).
    set (swB := {| api := Serving;
                   prefix_lists :=
                     Store.insertEntry prefix_list_name net31 (prefix_lists sw) |}).
    cbv beta iota.
    change {| dampeningDead := dampeningDead vA + 1; dampeningAlive := 0;
              wasAlive := false |} with vB.
    rewrite main_loop_app, bind_run.
    destruct (quiet_run py args net31 (replicate (S m) (Reachable response)) vB swB)
      as (tC & HlC & HcC & _).
    { fold D. rewrite HvC. by apply Forall_replicate. }
    fold D in HlC. fold vC in HlC. rewrite HlC.
    rewrite main_loop_single, loop_body_alive by done.
    split; intros Hpy.
    + rewrite remove_if_in_place_serving by done.
      unfold swB. cbn [prefix_lists].
      rewrite entries_insertEntry, last_match_snoc by done.
      do 2 eexists. split; [reflexivity|]. split; [done|]. split.
      * cbn [prefix_lists seqno]. rewrite entries_removeEntry, entries_insertEntry.
        rewrite filter_app, filter_fresh_seqno by apply next_seqno_above.
        rewrite filter_cons_False by (simpl; intros H; by apply H).
        by rewrite filter_nil, app_nil_r.
      * unfold api_calls in *. rewrite !omap_app, HcA, HcC. simpl.
        rewrite !omap_app, omap_check_log by done. reflexivity.
    + rewrite remove_if_in_place_py3 by done.
      do 2 eexists. split; [reflexivity|]. split.
      * unfold swB. cbn [prefix_lists]. apply entries_insertEntry.
      * unfold api_calls in *. rewrite !omap_app, HcA, HcC. reflexivity.
Qed.

Lemma death_and_resurrection_witness :
  1 <= dampening (Ex.args 2) /\ api (Ex.filtered Serving) = Serving /\
  transitions 3 (Ex.args 2) Ex.net31
    (replicate 2 Unreachable ++ replicate 3 (Reachable "0.045 ms"))
    initial_vars (Ex.filtered Serving) =
  [None; Some BecameDead; None; None; Some BecameAlive].
Proof.
  assert (H : 1 <= dampening (Ex.args 2)) by (simpl; lia).
  split; [exact H|]. split; [reflexivity|].
  exact (proj1 (death_and_resurrection 3 (Ex.args 2) Ex.net31 "0.045 ms"
                  (Ex.filtered Serving) H eq_refl)).
Defined.

(** ** Resurrection in general, and after a restart *)

(** X20.  From the dead state with the recovery counter at zero, on a serving
    switch, for every [D >= 0] and under either interpreter: [D] successes
    in a row announce nothing, and the success after them announces the
    resurrection. *)
Theorem resurrection_on_next_success (py : Z) (args : Args) (net31 response : string)
    (v : Vars) (sw : Switch) :
  0 <= dampening args -> api sw = Serving ->
  wasAlive v = false -> dampeningAlive v = 0 ->
  transitions py args net31
    (replicate (Z.to_nat (dampening args)) (Reachable response) ++ [Reachable response])
    v sw =
  replicate (Z.to_nat (dampening args)) None ++ [Some BecameAlive].
Proof.
  intros HD Hs Hw Ha.
  apply transitions_until_alive; [done| |apply replicate_None_absent].
  by apply resurrection_takes_one_more.
Qed.

Lemma resurrection_on_next_success_witness :
  transitions 2 (Ex.args 2) Ex.net31
    (replicate (Z.to_nat (dampening (Ex.args 2))) (Reachable "0.045 ms")
       ++ [Reachable "0.045 ms"])
    Ex.dead_vars (Ex.filtered Serving) =
  replicate (Z.to_nat (dampening (Ex.args 2))) None ++ [Some BecameAlive].
Proof.
  apply (resurrection_on_next_success 2 (Ex.args 2) Ex.net31 "0.045 ms" Ex.dead_vars
           (Ex.filtered Serving)).
  - simpl. lia.
  - reflexivity.
  - reflexivity.
  - reflexivity.
Defined.

(** X21.  Under Python 2, a restart that finds the entry of the target,
    followed by [D + 1] successes: the target is marked dead at the start, the resurrection is
    announced in the last pass, and an entry with the prefix is removed by
    its sequence number; the calls of the whole run are the two show
    commands and that removal. *)
Theorem restart_then_recovery (py : Z) (args : Args) (net31 response : string)
    (sw : Switch) (e : PrefixEntry) :
  py < 3 -> 0 <= dampening args ->
  network_s31 (host0 args) = Ok net31 -> api sw = Serving ->
  e ∈ Store.entries prefix_list_name (prefix_lists sw) -> prefix e = net31 ->
  exists t sw' e',
    main py args (replicate (S (Z.to_nat (dampening args))) (Reachable response)) sw =
      (t, sw', Ok initial_vars) /\
    e' ∈ Store.entries prefix_list_name (prefix_lists sw) /\ prefix e' = net31 /\
    notices t = [available_notice args; removed_notice args] /\
    api_calls t =
      [[ShowIpPrefixList prefix_list_name];
       [ShowIpPrefixList prefix_list_name];
       [Enable; Configure; NoIpPrefixListSeq prefix_list_name (seqno e'); End_]] /\
    api sw' = Serving /\
    Store.entries prefix_list_name (prefix_lists sw') =
      filter (fun x => seqno x ≠ seqno e')
             (Store.entries prefix_list_name (prefix_lists sw)).
Proof.
  intros Hpy HD Hn Hs Hin Hp.
  destruct (last_match_found _ _ _ Hin Hp) as [e' He'].
  destruct (last_match_Some _ _ _ He') as [Hin' Hp'].
  set (D := dampening args) in *.
  set (v0 := {| dampeningDead := 0; dampeningAlive := 0; wasAlive := false |}).
  destruct (recovering D response (Z.to_nat D) v0 eq_refl) as (Hv & Hw & Ha);
    [simpl; lia|].
  set (vC := run_vars D (replicate (Z.to_nat D) (Reachable response)) v0) in *.
  simpl dampeningAlive in Ha. assert (Ha' : dampeningAlive vC = D) by lia.
  destruct (quiet_run py args net31 (replicate (Z.to_nat D) (Reachable response)) v0 sw)
    as (tC & Hl & Hc & Hno).
  { fold D. rewrite Hv. by apply Forall_replicate. }
  fold D in Hl. fold vC in Hl.
  unfold main. rewrite bind_run, (main_start_serving py _ net31), He' by done.
  cbv beta iota. simpl fst. simpl snd. fold v0.
  rewrite replicate_S_end, main_loop_app, bind_run, Hl.
  rewrite main_loop_single, loop_body_alive by done.
  rewrite remove_if_in_place_serving, He' by done.
  do 2 eexists. exists e'. split; [reflexivity|]. split; [done|]. split; [done|].
  split.
  { unfold notices in *. simpl. rewrite !omap_app, Hno, !omap_check_log by done.
    simpl. rewrite !omap_app, omap_check_log by done. reflexivity. }
  split.
  { unfold api_calls in *. simpl. rewrite !omap_app, Hc, !omap_check_log by done.
    simpl. rewrite !omap_app, omap_check_log by done. reflexivity. }
  split; [done|]. apply entries_removeEntry.
Qed.

Lemma restart_then_recovery_witness :
  exists t sw' e',
    main 2 (Ex.args 2) (replicate (S (Z.to_nat (dampening (Ex.args 2)))) (Reachable "0.045 ms"))
      (Ex.filtered Serving) = (t, sw', Ok initial_vars) /\
    e' ∈ Store.entries prefix_list_name (prefix_lists (Ex.filtered Serving)) /\
    prefix e' = Ex.net31 /\
    notices t = [available_notice (Ex.args 2); removed_notice (Ex.args 2)].
Proof.
  destruct (restart_then_recovery 2 (Ex.args 2) Ex.net31 "0.045 ms" (Ex.filtered Serving)
              {| prefix := Ex.net31; seqno := 20 |})
    as (t & sw' & e' & H1 & H2 & H3 & H4 & _).
  - reflexivity.
  - simpl. lia.
  - reflexivity.
  - reflexivity.
  - vm_compute. right. left.
  - reflexivity.
  - by exists t, sw', e'.
Defined.

(** ** The script under Python 3 *)

(** X22.  Under Python 3 [main] never gets to the polling loop.  Whatever the
    host, the switch and the probe results to come, it ends with a
    failure, having sent no notice and at most one command, and the switch
    is left as it was.  With a host that is an address and a serving
    switch, the failure is the [AttributeError] of [has_key], raised after
    the first show command. *)
Theorem main_py3_never_polls (py : Z) (args : Args) (os : list ProbeOutcome) (sw : Switch) :
  3 <= py ->
  (exists t f,
     main py args os sw = (t, sw, Err f) /\
     notices t = [] /\ (List.length (api_calls t) <= 1)%nat) /\
  (forall net31,
     network_s31 (host0 args) = Ok net31 -> api sw = Serving ->
     main py args os sw =
       ([Log Debug (logStr_format "network /31 for host:" net31);
         RunCmds [ShowIpPrefixList prefix_list_name]; Close],
        sw, Err (Uncaught "AttributeError"))).
Proof.
  intros Hpy.
  assert (H3 : forall net31,
             network_s31 (host0 args) = Ok net31 -> api sw = Serving ->
             main py args os sw =
               ([Log Debug (logStr_format "network /31 for host:" net31);
                 RunCmds [ShowIpPrefixList prefix_list_name]; Close],
                sw, Err (Uncaught "AttributeError"))).
  { intros net31 Hn Hs. unfold main.
    by rewrite bind_run, (main_start_py3 py _ net31). }
  split; [|exact H3].
  destruct (network_s31 (host0 args)) as [net31|f] eqn:Hn.
  - assert (Hs : api sw = Serving \/ api sw <> Serving)
      by (destruct (api sw); [by left|by right|by right]).
    destruct Hs as [Hs|Hs].
    + rewrite (H3 net31 eq_refl Hs). do 2 eexists. split; [reflexivity|].
      split; [done|]. simpl. lia.
    + unfold main, main_start.
      rewrite !bind_run. unfold lift at 1. rewrite Hn. cbv beta iota.
      bind_step. rewrite bind_run, check_filter_failing by done.
      do 2 eexists. split; [reflexivity|].
      destruct (api sw); split; (done || (simpl; lia)).
  - unfold main. rewrite bind_run, (main_start_fatal py _ f) by done.
    do 2 eexists. split; [reflexivity|]. split; [done|]. simpl. lia.
Qed.

Lemma main_py3_never_polls_witness :
  3 <= 3 /\
  main 3 (Ex.args 3) [Ex.U; Ex.U; Ex.U] (Ex.filtered Serving) =
    ([Log Debug (logStr_format "network /31 for host:" Ex.net31);
      RunCmds [ShowIpPrefixList prefix_list_name]; Close],
     Ex.filtered Serving, Err (Uncaught "AttributeError")).
Proof.
  split; [exact (Z.le_refl 3)|].
  exact (proj2 (main_py3_never_polls 3 (Ex.args 3) [Ex.U; Ex.U; Ex.U]
                  (Ex.filtered Serving) (Z.le_refl 3))
           Ex.net31 eq_refl eq_refl).
Defined.

(** ** Hosts that are not addresses *)



